(** * Modmail relay core: a shallow embedding of [src/main.js]

    [main.js] is the glue of the bot: it registers the gateway event
    handlers and the staff commands, and delegates storage and transport to
    collaborators ([./queue], [./data/threads], [./data/blocked], [./utils],
    the [Thread] class).  The handlers are embedded here as programs of a
    small free monad whose operations are the atomic requests a handler can
    make of the persistent store, of the chat gateway and of the serial task
    queue.  Every operation of the monad is a possible suspension point of
    the JavaScript handler ([await]). *)

From Stdlib Require Import ZArith NArith String Ascii Lia.
From stdpp Require Import base decidable option list sorting gmap.

(** ** JavaScript strings *)

(** A JavaScript string is a sequence of UTF-16 code units. *)
Abbreviation jsstring := (list N).

Definition js (s : string) : jsstring :=
  map N_of_ascii (list_ascii_of_string s).

(** Code unit of the line feed, the ["\n"] of the source. *)
Definition LF : N := 10%N.

(** ECMAScript [WhiteSpace] and [LineTerminator] code units, the ones
    [String.prototype.trim] strips. *)
Definition isWhiteSpace (c : N) : bool :=
  ((9 <=? c) && (c <=? 13)
   || (c =? 32) || (c =? 160) || (c =? 5760)
   || (8192 <=? c) && (c <=? 8202)
   || (c =? 8232) || (c =? 8233) || (c =? 8239) || (c =? 8287)
   || (c =? 12288) || (c =? 65279))%N.

Fixpoint trimStart (s : jsstring) : jsstring :=
  match s with
  | [] => []
  | c :: s' => if isWhiteSpace c then trimStart s' else s
  end.

Definition trimEnd (s : jsstring) : jsstring := rev (trimStart (rev s)).

(** [String.prototype.trim] *)
Definition trim (s : jsstring) : jsstring := trimEnd (trimStart s).

(** [String.prototype.startsWith] *)
Fixpoint startsWith (s p : jsstring) : bool :=
  match p, s with
  | [], _ => true
  | _ :: _, [] => false
  | a :: p', b :: s' => (a =? b)%N && startsWith s' p'
  end.

(** [===] on two strings *)
Definition str_eqb (a b : jsstring) : bool := bool_decide (a = b).

(** [Array.prototype.join] *)
Fixpoint join (sep : jsstring) (l : list jsstring) : jsstring :=
  match l with
  | [] => []
  | [x] => x
  | x :: l' => x ++ sep ++ join sep l'
  end.

(** [String.prototype.split] with a separator of one code unit *)
Fixpoint split (sep : N) (s : jsstring) : list jsstring :=
  match s with
  | [] => [[]]
  | c :: s' =>
      if (c =? sep)%N then [] :: split sep s'
      else match split sep s' with
           | [] => [[c]]
           | l :: ls => (c :: l) :: ls
           end
  end.

(** ** Data model *)

(** Discord ids (users, channels, messages) are decimal strings. *)
Abbreviation Snowflake := (list N).

Inductive ThreadStatus := OPEN | CLOSED.

Inductive Direction := TO_USER | FROM_USER | STAFF_CHAT | SYSTEM.

Record Thread := mkThread {
  thread_id : N;
  user_id : Snowflake;
  channel_id : Snowflake;
  status : ThreadStatus;
  created_at : Z;
  closed_at : option Z
}.

Record ChatMessage := mkChatMessage {
  cm_thread_id : N;
  external_message_id : option Snowflake;
  direction : Direction;
  author_id : Snowflake;
  content : jsstring;
  attachment_refs : list jsstring;
  cm_created_at : Z;
  deleted : bool;
  anonymous : bool
}.

#[global] Instance ThreadStatus_eq_dec : EqDecision ThreadStatus.
Proof. solve_decision. Defined.
#[global] Instance Direction_eq_dec : EqDecision Direction.
Proof. solve_decision. Defined.

(** *** Gateway objects, as [main.js] reads them *)

Record User := mkUser {
  u_id : Snowflake;
  u_bot : bool;
  u_username : jsstring
}.

Record Member := mkMember {
  mem_id : Snowflake;
  mem_roles : list Snowflake
}.

(** [msg.channel]: what [instanceof Eris.PrivateChannel] tells apart. *)
Inductive Channel :=
| PrivateChannel (id : Snowflake)
| GuildChannel (id : Snowflake) (guild : Snowflake).

Definition ch_id (c : Channel) : Snowflake :=
  match c with PrivateChannel i => i | GuildChannel i _ => i end.

Definition instanceofPrivateChannel (c : Channel) : bool :=
  match c with PrivateChannel _ => true | GuildChannel _ _ => false end.

Record Message := mkMessage {
  m_id : Snowflake;
  m_type : N;
  m_channel : Channel;
  m_author : User;
  m_member : option Member;
  m_content : jsstring;
  m_attachments : list jsstring
}.

(** The [oldMessage] of a [messageUpdate] event; its content is [null]
    when the message was not cached. *)
Record OldMessage := mkOldMessage {
  old_content : option jsstring
}.

(** [./config], only the keys [main.js] reads.  A key may be absent, so the
    two flags are optional and read through JavaScript truthiness. *)
Record Config := mkConfig {
  cfg_prefix : jsstring;
  cfg_snippetPrefix : jsstring;
  cfg_alwaysReply : option bool;
  cfg_alwaysReplyAnon : option bool
}.

Definition truthy (o : option bool) : bool := default false o.

(** [x || false] *)
Definition or_false (o : option bool) : bool := default false o.

(** [./utils] and the pure helpers of the [Thread] class: they are not part
    of [main.js] and are taken as an interface. *)
Class Utils := {
  messageIsOnInboxServer : Message -> bool;
  isStaff : option Member -> bool;
  getUserMention : jsstring -> option Snowflake;
  disableLinkPreviews : jsstring -> jsstring;
  chunk : list jsstring -> nat -> list (list jsstring);
  getLogUrl : Thread -> jsstring;
  formatDate : Z -> jsstring
}.

(** ** Handler programs *)

(** A JavaScript exception. *)
Inductive JsError := TypeError (what : string).

(** The closures handed to [messageQueue.add]; [main.js] has one. *)
Inductive Task := DMTask (msg : Message).

(** Gateway effects a handler can cause, as they are observed outside. *)
Inductive Outbound :=
| ChannelCreated (channel : Snowflake) (for_user : Snowflake)
| DirectMessageSent (to : Snowflake) (text : jsstring) (atts : list jsstring)
| ChannelMessageSent (channel : Snowflake) (text : jsstring)
| MessageDeleted (channel : Snowflake) (message : Snowflake)
| AttachmentsSaved (message : Snowflake).

(** The atomic requests, indexed by the type of their answer. *)
Inductive Call : Type -> Type :=
(* blocklist table *)
| BlockedHas (uid : Snowflake) : Call bool
| BlockedInsert (uid : Snowflake) : Call unit
| BlockedRemove (uid : Snowflake) : Call unit
(* thread table *)
| ThreadSelectByChannel (cid : Snowflake) : Call (option Thread)
| ThreadSelectOpenByChannel (cid : Snowflake) : Call (option Thread)
| ThreadSelectOpenByUser (uid : Snowflake) : Call (option Thread)
| ThreadSelectClosedByUser (uid : Snowflake) : Call (list Thread)
| ThreadInsert (uid cid : Snowflake) : Call Thread
(* chat-message table *)
| MessageInsert (t : N) (ext : option Snowflake) (d : Direction)
    (author : Snowflake) (text : jsstring) (atts : list jsstring)
    (anon : bool) : Call unit
| MessageUpdateContent (t : N) (ext : Snowflake) (text : jsstring) : Call unit
| MessageSoftDelete (t : N) (ext : Snowflake) : Call unit
(* chat gateway *)
| CreateChannel (for_user : User) : Call Snowflake
| SendDirectMessage (to : Snowflake) (text : jsstring)
    (atts : list jsstring) : Call unit
| CreateMessage (channel : Snowflake) (text : jsstring) : Call unit
| DeleteMessage (channel : Snowflake) (message : Snowflake) : Call unit
| SaveAttachments (message : Snowflake) : Call unit
(* serial task queue *)
| QueueAdd (t : Task) : Call unit.

Inductive Prog (A : Type) : Type :=
| Ret (a : A)
| Throw (e : JsError)
| Vis {X : Type} (c : Call X) (k : X -> Prog A).

Arguments Ret {A} a.
Arguments Throw {A} e.
Arguments Vis {A X} c k.

Fixpoint bind {A B : Type} (p : Prog A) (f : A -> Prog B) : Prog B :=
  match p with
  | Ret a => f a
  | Throw e => Throw e
  | Vis c k => Vis c (fun x => bind (k x) f)
  end.

Definition call {X : Type} (c : Call X) : Prog X := Vis c Ret.

Declare Scope prog_scope.
Delimit Scope prog_scope with prog.
Notation "x <- p ;; q" := (bind p (fun x => q))
  (at level 100, p at next level, right associativity) : prog_scope.
Notation "p ;; q" := (bind p (fun _ => q))
  (at level 100, right associativity) : prog_scope.
Local Open Scope prog_scope.

(** Calling a method on a value that may be [null]. *)
Definition method {T A : Type} (o : option T) (name : string)
    (k : T -> Prog A) : Prog A :=
  match o with
  | Some t => k t
  | None => Throw (TypeError name)
  end.

(** ** The world the handlers run in *)

(** Modelled from the spec: the persistent store (thread, chat-message and
    blocklist tables of section 3), the serial task queue's pending tasks
    and the effects sent to the chat gateway.  The repository's
    [./data/*], [./queue] and [Thread] class are not part of [main.js]. *)
Record World := mkWorld {
  threads : list Thread;
  messages : list ChatMessage;
  blocklist : gset Snowflake;
  queue : list Task;
  outbox : list Outbound;
  now : Z;
  next_channel : N
}.

Definition set_threads (f : list Thread -> list Thread) (w : World) : World :=
  mkWorld (f (threads w)) (messages w) (blocklist w) (queue w) (outbox w)
          (now w) (next_channel w).
Definition set_messages (f : list ChatMessage -> list ChatMessage)
    (w : World) : World :=
  mkWorld (threads w) (f (messages w)) (blocklist w) (queue w) (outbox w)
          (now w) (next_channel w).
Definition set_blocklist (f : gset Snowflake -> gset Snowflake)
    (w : World) : World :=
  mkWorld (threads w) (messages w) (f (blocklist w)) (queue w) (outbox w)
          (now w) (next_channel w).
Definition set_queue (f : list Task -> list Task) (w : World) : World :=
  mkWorld (threads w) (messages w) (blocklist w) (f (queue w)) (outbox w)
          (now w) (next_channel w).
Definition emit (o : Outbound) (w : World) : World :=
  mkWorld (threads w) (messages w) (blocklist w) (queue w) (outbox w ++ [o])
          (now w) (next_channel w).
Definition tick (w : World) : World :=
  mkWorld (threads w) (messages w) (blocklist w) (queue w) (outbox w)
          (now w + 1)%Z (next_channel w).
Definition next_channel_id (w : World) : World :=
  mkWorld (threads w) (messages w) (blocklist w) (queue w) (outbox w)
          (now w) (next_channel w + 1)%N.

Fixpoint digits (d : Decimal.uint) : jsstring :=
  match d with
  | Decimal.Nil => []
  | Decimal.D0 d => 48%N :: digits d
  | Decimal.D1 d => 49%N :: digits d
  | Decimal.D2 d => 50%N :: digits d
  | Decimal.D3 d => 51%N :: digits d
  | Decimal.D4 d => 52%N :: digits d
  | Decimal.D5 d => 53%N :: digits d
  | Decimal.D6 d => 54%N :: digits d
  | Decimal.D7 d => 55%N :: digits d
  | Decimal.D8 d => 56%N :: digits d
  | Decimal.D9 d => 57%N :: digits d
  end.

(** A snowflake is printed in decimal. *)
Definition snowflake_of_N (n : N) : Snowflake := digits (N.to_uint n).

Definition is_open (t : Thread) : bool := bool_decide (status t = OPEN).
Definition is_closed (t : Thread) : bool := bool_decide (status t = CLOSED).
Definition of_user (uid : Snowflake) (t : Thread) : bool :=
  bool_decide (user_id t = uid).
Definition on_channel (cid : Snowflake) (t : Thread) : bool :=
  bool_decide (channel_id t = cid).

(** Modelled from the spec: [find_open_thread_by_user], exact lookup. *)
Definition find_open_thread_by_user (ts : list Thread) (uid : Snowflake)
  : option Thread :=
  List.find (fun t => is_open t && of_user uid t) ts.

(** Modelled from the spec: [find_open_thread_by_channel]. *)
Definition find_open_thread_by_channel (ts : list Thread) (cid : Snowflake)
  : option Thread :=
  List.find (fun t => is_open t && on_channel cid t) ts.

(** Modelled from the spec: [threads.findByChannelId], which the spec does
    not list; by its name, the lookup by channel without the filter on the
    status that [findOpenThreadByChannelId] has. *)
Definition find_thread_by_channel (ts : list Thread) (cid : Snowflake)
  : option Thread :=
  List.find (on_channel cid) ts.

(** Threads compared by creation time. *)
Definition created_le (a b : Thread) : Prop :=
  (created_at a <= created_at b)%Z.

#[global] Instance created_le_dec (a b : Thread) : Decision (created_le a b).
Proof. unfold created_le. apply _. Defined.

Definition sort_by_created (l : list Thread) : list Thread :=
  merge_sort created_le l.

(** Modelled from the spec: [get_closed_threads_by_user], the closed threads
    of a user in ascending creation order. *)
Definition get_closed_threads_by_user (ts : list Thread) (uid : Snowflake)
  : list Thread :=
  sort_by_created (List.filter (fun t => is_closed t && of_user uid t) ts).

Definition matches (t : N) (ext : Snowflake) (m : ChatMessage) : bool :=
  bool_decide (cm_thread_id m = t)
  && bool_decide (external_message_id m = Some ext).

Definition with_content (text : jsstring) (m : ChatMessage) : ChatMessage :=
  mkChatMessage (cm_thread_id m) (external_message_id m) (direction m)
    (author_id m) text (attachment_refs m) (cm_created_at m) (deleted m)
    (anonymous m).

(** Modelled from the spec: a chat message is soft-deleted, its content is
    retained and its [deleted] flag set. *)
Definition soft_deleted (m : ChatMessage) : ChatMessage :=
  mkChatMessage (cm_thread_id m) (external_message_id m) (direction m)
    (author_id m) (content m) (attachment_refs m) (cm_created_at m) true
    (anonymous m).

Definition update_matching (t : N) (ext : Snowflake)
    (f : ChatMessage -> ChatMessage) (ms : list ChatMessage)
  : list ChatMessage :=
  map (fun m => if matches t ext m then f m else m) ms.

Definition new_thread (w : World) (uid cid : Snowflake) : Thread :=
  mkThread (N.of_nat (length (threads w))) uid cid OPEN (now w) None.

Definition new_message (w : World) (t : N) (ext : option Snowflake)
    (d : Direction) (author : Snowflake) (text : jsstring)
    (atts : list jsstring) (anon : bool) : ChatMessage :=
  mkChatMessage t ext d author text atts (now w) false anon.

(** Modelled from the spec: what one atomic request answers and how it
    changes the world. *)
Definition exec {X : Type} (c : Call X) (w : World) : X * World :=
  match c in Call X return X * World with
  | BlockedHas uid => (bool_decide (uid ∈ blocklist w), w)
  | BlockedInsert uid => (tt, set_blocklist (fun b => {[uid]} ∪ b) w)
  | BlockedRemove uid => (tt, set_blocklist (fun b => b ∖ {[uid]}) w)
  | ThreadSelectByChannel cid => (find_thread_by_channel (threads w) cid, w)
  | ThreadSelectOpenByChannel cid =>
      (find_open_thread_by_channel (threads w) cid, w)
  | ThreadSelectOpenByUser uid =>
      (find_open_thread_by_user (threads w) uid, w)
  | ThreadSelectClosedByUser uid =>
      (get_closed_threads_by_user (threads w) uid, w)
  | ThreadInsert uid cid =>
      let t := new_thread w uid cid in
      (t, tick (set_threads (fun ts => ts ++ [t]) w))
  | MessageInsert t ext d author text atts anon =>
      let m := new_message w t ext d author text atts anon in
      (tt, tick (set_messages (fun ms => ms ++ [m]) w))
  | MessageUpdateContent t ext text =>
      (tt, set_messages (update_matching t ext (with_content text)) w)
  | MessageSoftDelete t ext =>
      (tt, set_messages (update_matching t ext soft_deleted) w)
  | CreateChannel u =>
      let cid := snowflake_of_N (next_channel w) in
      (cid, next_channel_id (emit (ChannelCreated cid (u_id u)) w))
  | SendDirectMessage to text atts =>
      (tt, emit (DirectMessageSent to text atts) w)
  | CreateMessage cid text => (tt, emit (ChannelMessageSent cid text) w)
  | DeleteMessage cid mid => (tt, emit (MessageDeleted cid mid) w)
  | SaveAttachments mid => (tt, emit (AttachmentsSaved mid) w)
  | QueueAdd t => (tt, set_queue (fun q => q ++ [t]) w)
  end.

(** How a handler invocation ends. *)
Inductive Outcome (A : Type) :=
| Returned (a : A)
| Threw (e : JsError).

Arguments Returned {A} a.
Arguments Threw {A} e.

(** Running a program to its end, with nothing else interleaved. *)
Fixpoint run {A : Type} (p : Prog A) (w : World) : Outcome A * World :=
  match p with
  | Ret a => (Returned a, w)
  | Throw e => (Threw e, w)
  | Vis c k => let (x, w') := exec c w in run (k x) w'
  end.

Inductive AnyCall :=
| any : forall X : Type, Call X -> AnyCall.

Arguments any {X} c.

(** The requests a program makes when run from [w], in order. *)
Fixpoint calls {A : Type} (p : Prog A) (w : World) : list AnyCall :=
  match p with
  | Ret _ | Throw _ => []
  | Vis c k => let (x, w') := exec c w in any c :: calls (k x) w'
  end.

(** ** The collaborators [main.js] calls *)

(** Modelled from the spec: [blocked.isBlocked] of [./data/blocked], the
    membership check of the blocklist gate of section 4.4. *)
Definition blocked_isBlocked (uid : Snowflake) : Prog bool :=
  call (BlockedHas uid).
(** Modelled from the spec: [blocked.block], idempotent insert. *)
Definition blocked_block (uid : Snowflake) : Prog unit :=
  call (BlockedInsert uid).
(** Modelled from the spec: [blocked.unblock], idempotent remove. *)
Definition blocked_unblock (uid : Snowflake) : Prog unit :=
  call (BlockedRemove uid).

(** Modelled from the spec: [threads.findByChannelId] of [./data/threads],
    one query of the thread table. *)
Definition threads_findByChannelId (cid : Snowflake) : Prog (option Thread) :=
  call (ThreadSelectByChannel cid).
(** Modelled from the spec: [find_open_thread_by_channel] of section 4.2. *)
Definition threads_findOpenThreadByChannelId (cid : Snowflake)
  : Prog (option Thread) :=
  call (ThreadSelectOpenByChannel cid).
(** Modelled from the spec: [find_open_thread_by_user] of section 4.2. *)
Definition threads_findOpenThreadByUserId (uid : Snowflake)
  : Prog (option Thread) :=
  call (ThreadSelectOpenByUser uid).
(** Modelled from the spec: [get_closed_threads_by_user] of section 4.2. *)
Definition threads_getClosedThreadsByUserId (uid : Snowflake)
  : Prog (list Thread) :=
  call (ThreadSelectClosedByUser uid).

(** Modelled from the spec: [find_or_create_thread_for_user] returns the
    user's OPEN thread if there is one; otherwise it creates a channel,
    persists a new OPEN thread and returns it.  The lookup, the channel
    creation and the insert are three requests, so another handler can run
    between them. *)
Definition threads_findOrCreateThreadForUser (user : User) : Prog Thread :=
  found <- call (ThreadSelectOpenByUser (u_id user)) ;;
  match found with
  | Some t => Ret t
  | None =>
      cid <- call (CreateChannel user) ;;
      call (ThreadInsert (u_id user) cid)
  end.

(** Modelled from the spec: [./queue], [enqueue] appends the task and
    returns. *)
Definition messageQueue_add (t : Task) : Prog unit := call (QueueAdd t).

(** Modelled from the spec: attachment capture (section 4.5). *)
Definition attachments_saveAttachmentsInMessage (msg : Message) : Prog unit :=
  call (SaveAttachments (m_id msg)).

(** Modelled from the spec: [Thread.replyToUser], by the decision table of
    section 4.3: the text and the attachments go to the thread's user as a
    direct message and a TO_USER chat message is persisted, tagged with
    [anon]. *)
Definition thread_replyToUser (t : Thread) (moderator : option Member)
    (text : jsstring) (atts : list jsstring) (anon : bool) : Prog unit :=
  call (SendDirectMessage (user_id t) text atts) ;;
  call (MessageInsert (thread_id t) None TO_USER
          (from_option mem_id [] moderator) text atts anon).

(** Modelled from the spec: [Thread.receiveUserReply] appends a FROM_USER
    chat message and relays the content into the thread's channel. *)
Definition thread_receiveUserReply (t : Thread) (msg : Message) : Prog unit :=
  call (MessageInsert (thread_id t) (Some (m_id msg)) FROM_USER
          (u_id (m_author msg)) (m_content msg) (m_attachments msg) false) ;;
  call (CreateMessage (channel_id t) (m_content msg)).

(** Modelled from the spec: [Thread.saveChatMessage] stores the message as
    STAFF_CHAT and relays nothing. *)
Definition thread_saveChatMessage (t : Thread) (msg : Message) : Prog unit :=
  call (MessageInsert (thread_id t) (Some (m_id msg)) STAFF_CHAT
          (u_id (m_author msg)) (m_content msg) (m_attachments msg) false).

(** Modelled from the spec: [Thread.postSystemMessage] posts the text into
    the thread's channel and logs it as SYSTEM. *)
Definition thread_postSystemMessage (t : Thread) (text : jsstring)
  : Prog unit :=
  call (CreateMessage (channel_id t) text) ;;
  call (MessageInsert (thread_id t) None SYSTEM [] text [] false).

(** Modelled from the spec: [Thread.updateChatMessage] locates the chat
    message by its external message id and updates its content in place. *)
Definition thread_updateChatMessage (t : Thread) (msg : Message)
  : Prog unit :=
  call (MessageUpdateContent (thread_id t) (m_id msg) (m_content msg)).

(** Modelled from the spec: [Thread.deleteChatMessage] soft-deletes the
    chat message recorded for the external message id. *)
Definition thread_deleteChatMessage (t : Thread) (id : Snowflake)
  : Prog unit :=
  call (MessageSoftDelete (thread_id t) id).

(** [msg.delete()] of the gateway. *)
Definition msg_delete (msg : Message) : Prog unit :=
  call (DeleteMessage (ch_id (m_channel msg)) (m_id msg)).
(** [channel.createMessage(text)] of the gateway. *)
Definition channel_createMessage (c : Channel) (text : jsstring)
  : Prog unit :=
  call (CreateMessage (ch_id c) text).

(** ** [main.js]

    A call that [main.js] leaves un-awaited is always the last statement of
    its handler, so it is sequenced like an awaited one. *)

Section Main.
Context `{utils : Utils} (config : Config).

(** [bot.on('messageCreate')], lines 31-49: a moderator posts in a thread
    channel. *)
Definition on_messageCreate_staff (msg : Message) : Prog unit :=
  if negb (messageIsOnInboxServer msg) then Ret tt else
  if negb (isStaff (m_member msg)) then Ret tt else
  if u_bot (m_author msg) then Ret tt else
  if startsWith (m_content msg) (cfg_prefix config)
     || startsWith (m_content msg) (cfg_snippetPrefix config) then Ret tt else
  thread <- threads_findByChannelId (ch_id (m_channel msg)) ;;
  match thread with
  | None => Ret tt
  | Some thread =>
      if truthy (cfg_alwaysReply config) then
        (if (0 <? length (m_attachments msg))%nat
         then attachments_saveAttachmentsInMessage msg else Ret tt) ;;
        thread_replyToUser thread (m_member msg) (trim (m_content msg))
          (m_attachments msg) (or_false (cfg_alwaysReplyAnon config)) ;;
        msg_delete msg
      else
        thread_saveChatMessage thread msg
  end.

(** The closure queued at lines 64-67. *)
Definition task_body (t : Task) : Prog unit :=
  match t with
  | DMTask msg =>
      thread <- threads_findOrCreateThreadForUser (m_author msg) ;;
      thread_receiveUserReply thread msg
  end.

(** [bot.on('messageCreate')], lines 56-68: a private message. *)
Definition on_messageCreate_dm (msg : Message) : Prog unit :=
  if negb (instanceofPrivateChannel (m_channel msg)) then Ret tt else
  if u_bot (m_author msg) then Ret tt else
  if negb (m_type msg =? 0)%N then Ret tt else
  isBlocked <- blocked_isBlocked (u_id (m_author msg)) ;;
  if isBlocked then Ret tt else
  messageQueue_add (DMTask msg).

Definition unavailable : jsstring := js "*Unavailable due to bot restart*".

(** The text built at line 91. *)
Definition edit_notice (oldContent newContent : jsstring) : jsstring :=
  js "**The user edited their message:**" ++ [LF] ++ js "`B:` "
  ++ oldContent ++ [LF] ++ js "`A:` " ++ newContent.

(** [bot.on('messageUpdate')], lines 75-103. *)
Definition on_messageUpdate (msg : Message) (oldMessage : OldMessage)
  : Prog unit :=
  if u_bot (m_author msg) then Ret tt else
  isBlocked <- blocked_isBlocked (u_id (m_author msg)) ;;
  if isBlocked then Ret tt else
  let oldContent := default unavailable (old_content oldMessage) in
  let newContent := m_content msg in
  if str_eqb (trim newContent) (trim oldContent) then Ret tt else
  if instanceofPrivateChannel (m_channel msg) then
    thread <- threads_findOpenThreadByUserId (u_id (m_author msg)) ;;
    let editMessage :=
      disableLinkPreviews (edit_notice oldContent newContent) in
    method thread "postSystemMessage"
      (fun thread => thread_postSystemMessage thread editMessage)
  else if messageIsOnInboxServer msg && isStaff (m_member msg) then
    thread <- threads_findOpenThreadByChannelId (ch_id (m_channel msg)) ;;
    match thread with
    | None => Ret tt
    | Some thread => thread_updateChatMessage thread msg
    end
  else Ret tt.

(** [bot.on('messageDelete')], lines 108-117. *)
Definition on_messageDelete (msg : Message) : Prog unit :=
  if u_bot (m_author msg) then Ret tt else
  if negb (messageIsOnInboxServer msg) then Ret tt else
  if negb (isStaff (m_member msg)) then Ret tt else
  thread <- threads_findOpenThreadByChannelId (ch_id (m_channel msg)) ;;
  match thread with
  | None => Ret tt
  | Some thread => thread_deleteChatMessage thread (m_id msg)
  end.

(** The argument dispatch shared by [block], [unblock] and [logs]
    (lines 175-183, 192-200, 226-234). *)
Definition on_user_argument (args : list jsstring) (thread : option Thread)
    (action : Snowflake -> Prog unit) : Prog unit :=
  if (0 <? length args)%nat then
    let userId := getUserMention (join (js " ") args) in
    match userId with
    | None | Some [] => Ret tt  (* [! userId]: null and the empty string *)
    | Some (c :: id) => action (c :: id)
    end
  else
    match thread with
    | Some thread => action (user_id thread)
    | None => Ret tt
    end.

(** [addInboxServerCommand('block')], lines 169-184. *)
Definition block (msg : Message) (userId : Snowflake) : Prog unit :=
  blocked_block userId ;;
  channel_createMessage (m_channel msg)
    (js "Blocked <@" ++ userId ++ js "> (id " ++ userId
     ++ js ") from modmail").

Definition cmd_block (msg : Message) (args : list jsstring)
    (thread : option Thread) : Prog unit :=
  on_user_argument args thread (block msg).

(** [addInboxServerCommand('unblock')], lines 186-201. *)
Definition unblock (msg : Message) (userId : Snowflake) : Prog unit :=
  blocked_unblock userId ;;
  channel_createMessage (m_channel msg)
    (js "Unblocked <@" ++ userId ++ js "> (id " ++ userId
     ++ js ") from modmail").

Definition cmd_unblock (msg : Message) (args : list jsstring)
    (thread : option Thread) : Prog unit :=
  on_user_argument args thread (unblock msg).

(** [addInboxServerCommand('logs')], lines 203-235. *)
Definition log_line (thread : Thread) : jsstring :=
  js "`" ++ formatDate (created_at thread) ++ js "`: <"
  ++ getLogUrl thread ++ js ">".

Definition log_header (userId : Snowflake) : jsstring :=
  js "**Log files for <@" ++ userId ++ js ">:**".

(** Lines 206-218: from the threads the store returned to the chunks of
    lines to post. *)
Definition log_chunks (userId : Snowflake) (userThreads : list Thread)
  : list (list jsstring) :=
  let userThreads := rev userThreads in
  let threadLines := map log_line userThreads in
  let message := log_header userId ++ [LF] ++ join [LF] threadLines in
  let lines := split LF message in
  chunk lines 15.

Fixpoint post_chunks (msg : Message) (chunks : list (list jsstring))
  : Prog unit :=
  match chunks with
  | [] => Ret tt
  | lines :: rest =>
      channel_createMessage (m_channel msg) (join [LF] lines) ;;
      post_chunks msg rest
  end.

Definition getLogs (msg : Message) (userId : Snowflake) : Prog unit :=
  userThreads <- threads_getClosedThreadsByUserId userId ;;
  post_chunks msg (log_chunks userId userThreads).

Definition cmd_logs (msg : Message) (args : list jsstring)
    (thread : option Thread) : Prog unit :=
  on_user_argument args thread (getLogs msg).

End Main.

(** ** The event loop *)

(** Modelled from the spec: the cooperative scheduling of section 5 and the
    single worker of the serial task queue of section 4.1.  Handler
    invocations are in flight together and each advances by one request at
    a time, in any order; the worker runs one task at a time, takes the
    tasks in the order they were added, and discards a task when it has
    returned or thrown. *)
Record Sys := mkSys {
  world : World;
  handlers : list (Prog unit);
  worker : option (Prog unit)
}.

(** Who advances next: the [i]-th handler invocation or the worker. *)
Inductive Choice :=
| Handler (i : nat)
| Worker.

(** Modelled from the spec: one step of the event loop; [None] when the
    chosen party has nothing to do. *)
Definition sys_step (c : Choice) (s : Sys) : option Sys :=
  match c with
  | Handler i =>
      match handlers s !! i with
      | Some (Vis c k) =>
          let (x, w') := exec c (world s) in
          Some (mkSys w' (<[i := k x]> (handlers s)) (worker s))
      | _ => None
      end
  | Worker =>
      match worker s with
      | Some (Vis c k) =>
          let (x, w') := exec c (world s) in
          Some (mkSys w' (handlers s) (Some (k x)))
      | Some (Ret _) | Some (Throw _) =>
          Some (mkSys (world s) (handlers s) None)
      | None =>
          match queue (world s) with
          | [] => None
          | t :: q =>
              Some (mkSys (set_queue (fun _ => q) (world s)) (handlers s)
                      (Some (task_body t)))
          end
      end
  end.

(** A whole schedule. *)
Fixpoint sys_exec (sched : list Choice) (s : Sys) : option Sys :=
  match sched with
  | [] => Some s
  | c :: sched' =>
      match sys_step c s with
      | Some s' => sys_exec sched' s'
      | None => None
      end
  end.

Definition finished {A : Type} (p : Prog A) : bool :=
  match p with
  | Vis _ _ => false
  | _ => true
  end.

(** Every handler has ended, the worker is idle and the queue is empty. *)
Definition quiescent (s : Sys) : bool :=
  forallb finished (handlers s)
  && match worker s with None => true | Some _ => false end
  && match queue (world s) with [] => true | _ :: _ => false end.

(** The gateway delivers the private messages [msgs]: one invocation of the
    handler each. *)
Definition deliver (w : World) (msgs : list Message) : Sys :=
  mkSys w (map on_messageCreate_dm msgs) None.

(** The tasks [ts] run one after the other, as the worker runs them. *)
Fixpoint run_tasks (ts : list Task) (w : World) : World :=
  match ts with
  | [] => w
  | t :: ts' => run_tasks ts' (snd (run (task_body t) w))
  end.

(** *** What the proof of the one-thread property speaks of *)

(** Requests on the thread and chat-message tables and on the gateway: they
    neither read nor write the queue and the blocklist. *)
Definition is_registry_call (c : AnyCall) : bool :=
  match c with
  | any c =>
      match c with
      | BlockedHas _ | BlockedInsert _ | BlockedRemove _ | QueueAdd _ => false
      | _ => true
      end
  end.

Fixpoint registry_prog {A : Type} (p : Prog A) : Prop :=
  match p with
  | Vis c k => is_registry_call (any c) = true /\ forall x, registry_prog (k x)
  | _ => True
  end.

(** How far the handler of a private message has come. *)
Inductive Stage := Received | Checked | Done.

Definition stage_prog (ms : Message * Stage) : Prog unit :=
  match ms.2 with
  | Received => on_messageCreate_dm ms.1
  | Checked => messageQueue_add (DMTask ms.1)
  | Done => Ret tt
  end.

(** The messages whose task is not yet in the queue. *)
Definition pending (stages : list (Message * Stage)) : list Message :=
  flat_map (fun ms => match ms.2 with Done => [] | _ => [ms.1] end) stages.

Definition finish (p : option (Prog unit)) (w : World) : World :=
  match p with
  | Some p => snd (run p w)
  | None => w
  end.

(** The world once the running task, the queued tasks and then the tasks of
    [later] have run, the queue left out. *)
Definition outcome_of (s : Sys) (later : list Message) : World :=
  set_queue (fun _ => [])
    (run_tasks (queue (world s) ++ map DMTask later)
       (finish (worker s) (world s))).

(** One thread was created for [uid] on top of the store [w0], and the chat
    messages added are the messages [msgs], all FROM_USER and all in that
    thread. *)
Definition one_thread_for (w0 : World) (uid : Snowflake)
    (msgs : list Message) (w : World) : Prop :=
  exists (t : Thread) (new : list ChatMessage),
    threads w = threads w0 ++ [t]
    /\ status t = OPEN /\ user_id t = uid
    /\ messages w = messages w0 ++ new
    /\ Forall (fun cm => cm_thread_id cm = thread_id t
                         /\ direction cm = FROM_USER) new
    /\ map external_message_id new ≡ₚ map (fun m => Some (m_id m)) msgs.

(** A private message of [u], of the normal type. *)
Definition first_dm (u : User) (m : Message) : Prop :=
  m_author m = u /\ instanceofPrivateChannel (m_channel m) = true
  /\ m_type m = 0%N.

(** What holds of every state the event loop reaches after the messages
    [msgs] of [u] were delivered on the store [w0]: each handler is at one of
    its three stages, [u] is still not blocked, the worker runs a registry
    program, and however the tasks not yet queued will be ordered, running
    all that is left ends with one thread for [u]. *)
Definition Inv (w0 : World) (u : User) (msgs : list Message) (s : Sys)
  : Prop :=
  exists stages : list (Message * Stage),
    handlers s = map stage_prog stages
    /\ Forall (fun ms => first_dm u ms.1) stages
    /\ (u_id u ∉ blocklist (world s))
    /\ from_option registry_prog True (worker s)
    /\ forall later : list Message,
         later ≡ₚ pending stages ->
         one_thread_for w0 (u_id u) msgs (outcome_of s later).

(** ** A concrete deployment, for the worked examples *)

Module Demo.

Definition inbox_guild : Snowflake := js "500".
Definition staff_role : Snowflake := js "900".

Definition is_digit (c : N) : bool := ((48 <=? c) && (c <=? 57))%N.

Fixpoint chunk_fuel {A : Type} (fuel : nat) (l : list A) (n : nat)
  : list (list A) :=
  match fuel, l with
  | O, _ | _, [] => []
  | S fuel', _ :: _ => take n l :: chunk_fuel fuel' (drop n l) n
  end.

Definition utils : Utils := {|
  messageIsOnInboxServer m :=
    match m_channel m with
    | GuildChannel _ g => bool_decide (g = inbox_guild)
    | PrivateChannel _ => false
    end;
  isStaff mem :=
    match mem with
    | Some m => bool_decide (staff_role ∈ mem_roles m)
    | None => false
    end;
  getUserMention s :=
    if forallb is_digit s && (0 <? length s)%nat then Some s else None;
  disableLinkPreviews s := s;
  chunk l n := chunk_fuel (length l) l n;
  getLogUrl t := js "https://logs.example/" ++ snowflake_of_N (thread_id t);
  formatDate z := js "day " ++ snowflake_of_N (Z.to_N z)
|}.

Definition config : Config :=
  mkConfig (js "!") (js "!!") (Some true) None.

Definition alice : User := mkUser (js "111") false (js "alice").
Definition moderator : User := mkUser (js "222") false (js "mod").
Definition moderator_member : Member := mkMember (js "222") [staff_role].

Definition dm1 : Message :=
  mkMessage (js "9001") 0 (PrivateChannel (js "77")) alice None
    (js "hello") [].
Definition dm2 : Message :=
  mkMessage (js "9002") 0 (PrivateChannel (js "77")) alice None
    (js "anyone there?") [].

(** A moderator's message in the channel of alice's thread. *)
Definition staff_msg : Message :=
  mkMessage (js "9100") 0 (GuildChannel (js "1000") inbox_guild) moderator
    (Some moderator_member) (js " on it ") [js "https://cdn.example/a.png"].

Definition closed_late : Thread :=
  mkThread 1 (js "111") (js "1001") CLOSED 3 (Some 4%Z).
Definition closed_early : Thread :=
  mkThread 2 (js "111") (js "1002") CLOSED 1 (Some 2%Z).
Definition open_thread : Thread :=
  mkThread 0 (js "111") (js "1000") OPEN 5 None.

Definition stored_chat : ChatMessage :=
  mkChatMessage 0 (Some (js "9100")) STAFF_CHAT (js "222") (js " on it ") []
    6 false false.

(** A fresh store, and one where alice has two closed threads and an open
    one. *)
Definition fresh : World := mkWorld [] [] ∅ [] [] 0 1000.
Definition busy : World :=
  mkWorld [closed_late; closed_early; open_thread] [stored_chat] ∅ [] [] 10
    1003.
Definition busy_blocked : World :=
  set_blocklist (fun _ => {[ js "222" ]}) busy.

(** An edit of [dm1]. *)
Definition dm1_edited : Message :=
  mkMessage (js "9001") 0 (PrivateChannel (js "77")) alice None
    (js "hello there") [].

(** The same edit event with only white space added. *)
Definition dm1_padded : Message :=
  mkMessage (js "9001") 0 (PrivateChannel (js "77")) alice None
    (js "  hello ") [].

(** The moderator corrects the message stored as [stored_chat]. *)
Definition staff_msg_edited : Message :=
  mkMessage (js "9100") 0 (GuildChannel (js "1000") inbox_guild) moderator
    (Some moderator_member) (js "on it now") [].

(** A schedule where the two handlers and the worker alternate. *)
Definition interleaved : list Choice :=
  [Handler 0; Handler 1; Handler 1; Worker; Worker; Handler 0; Worker;
   Worker; Worker; Worker; Worker; Worker; Worker; Worker; Worker; Worker].

End Demo.

(** ** The rest of [main.js]: the reply commands and the mention alert *)

(** [addInboxServerCommand('reply')], lines 140-147. *)
Definition cmd_reply (msg : Message) (args : list jsstring)
    (thread : option Thread) : Prog unit :=
  match thread with
  | None => Ret tt
  | Some thread =>
      let text := trim (join (js " ") args) in
      (if (0 <? length (m_attachments msg))%nat
       then attachments_saveAttachmentsInMessage msg else Ret tt) ;;
      thread_replyToUser thread (m_member msg) text (m_attachments msg)
        false ;;
      msg_delete msg
  end.

(** [addInboxServerCommand('anonreply')], lines 152-159. *)
Definition cmd_anonreply (msg : Message) (args : list jsstring)
    (thread : option Thread) : Prog unit :=
  match thread with
  | None => Ret tt
  | Some thread =>
      let text := trim (join (js " ") args) in
      (if (0 <? length (m_attachments msg))%nat
       then attachments_saveAttachmentsInMessage msg else Ret tt) ;;
      thread_replyToUser thread (m_member msg) text (m_attachments msg)
        true ;;
      msg_delete msg
  end.

(** What the mention handler reads of a message beyond the fields of
    [Message]: [msg.mentions], [msg.cleanContent], [msg.channel.mention] and
    [msg.author.discriminator]. *)
Record MentionInfo := mkMentionInfo {
  mi_mentions : list User;
  mi_cleanContent : jsstring;
  mi_channel_mention : jsstring;
  mi_discriminator : jsstring
}.

(** What the mention handler reads of [./utils] and of [bot]: they are not
    part of [main.js] and are taken as an interface. *)
Class MainServer := {
  messageIsOnMainServer : Message -> bool;
  bot_user_id : Snowflake;
  inboxGuild_members_get : Snowflake -> option Member;
  logChannel_id : Snowflake
}.

(** The double quote of the alert text. *)
Definition DQUOTE : N := 34%N.

(** The text built at line 133. *)
Definition mention_alert (msg : Message) (info : MentionInfo) : jsstring :=
  js "@here Bot mentioned in " ++ mi_channel_mention info ++ js " by **"
  ++ u_username (m_author msg) ++ js "#" ++ mi_discriminator info
  ++ js "**: " ++ [DQUOTE] ++ mi_cleanContent info ++ [DQUOTE].

(** [bot.on('messageCreate')], lines 122-136: the bot is mentioned on the
    main server.  The [disableEveryone: false] of the posted object is not
    kept by [CreateMessage]. *)
Definition on_messageCreate_mention `{MainServer} (msg : Message)
    (info : MentionInfo) : Prog unit :=
  if negb (messageIsOnMainServer msg) then Ret tt else
  if negb (existsb (fun user => str_eqb (u_id user) bot_user_id)
             (mi_mentions info)) then Ret tt else
  if bool_decide (is_Some (inboxGuild_members_get (u_id (m_author msg))))
  then Ret tt else
  isBlocked <- blocked_isBlocked (u_id (m_author msg)) ;;
  if isBlocked then Ret tt else
  call (CreateMessage logChannel_id (mention_alert msg info)).

(** White space only. *)
Definition blank (s : jsstring) : Prop := Forall (fun c => isWhiteSpace c = true) s.

(** ** More of the concrete deployment *)

Module Demo2.

Definition main_guild : Snowflake := js "400".

Definition main : MainServer := {|
  messageIsOnMainServer m :=
    match m_channel m with
    | GuildChannel _ g => bool_decide (g = main_guild)
    | PrivateChannel _ => false
    end;
  bot_user_id := js "1";
  inboxGuild_members_get uid :=
    if bool_decide (uid = js "222") then Some Demo.moderator_member else None;
  logChannel_id := js "600"
|}.

(** A [getUserMention] that keeps the digits of its input, and so returns
    the empty string when there are none. *)
Definition lenient_utils : Utils := {|
  messageIsOnInboxServer := @messageIsOnInboxServer Demo.utils;
  isStaff := @isStaff Demo.utils;
  getUserMention s := Some (List.filter Demo.is_digit s);
  disableLinkPreviews := @disableLinkPreviews Demo.utils;
  chunk := @chunk Demo.utils;
  getLogUrl := @getLogUrl Demo.utils;
  formatDate := @formatDate Demo.utils
|}.

Definition the_bot : User := mkUser (js "1") true (js "modmail").
Definition carol : User := mkUser (js "333") false (js "carol").

(** Carol mentions the bot in a channel of the main server. *)
Definition mention_msg : Message :=
  mkMessage (js "9300") 0 (GuildChannel (js "4001") main_guild) carol None
    (js "<@1> help") [].
Definition mention_info : MentionInfo :=
  mkMentionInfo [the_bot] (js "@modmail help") (js "<#4001>") (js "0001").

(** The moderator types [!block 111] in the channel of alice's thread. *)
Definition block_cmd : Message :=
  mkMessage (js "9400") 0 (GuildChannel (js "1000") Demo.inbox_guild)
    Demo.moderator (Some Demo.moderator_member) (js "!block 111") [].

(** A moderator's message in the same channel that the store never
    recorded. *)
Definition unrecorded : Message :=
  mkMessage (js "9200") 0 (GuildChannel (js "1000") Demo.inbox_guild)
    Demo.moderator (Some Demo.moderator_member) (js "typo") [].


End Demo2.

(** ** Requests that only read *)

Definition is_query (c : AnyCall) : bool :=
  match c with
  | any c =>
      match c with
      | BlockedHas _ | ThreadSelectByChannel _ | ThreadSelectOpenByChannel _
      | ThreadSelectOpenByUser _ | ThreadSelectClosedByUser _ => true
      | _ => false
      end
  end.

Definition is_blocklist_check (c : AnyCall) : bool :=
  match c with
  | any c => match c with BlockedHas _ => true | _ => false end
  end.

Definition is_enqueue (c : AnyCall) : bool :=
  match c with
  | any c => match c with QueueAdd _ => true | _ => false end
  end.

Lemma query_keeps_world {X : Type} (c : Call X) (w : World) :
  is_query (any c) = true -> snd (exec c w) = w.
Proof. destruct c; simpl; intros H; try discriminate H; reflexivity. Qed.

(** A program that only queries leaves the world as it found it. *)
Lemma queries_keep_world {A : Type} (p : Prog A) (w : World) :
  forallb is_query (calls p w) = true -> snd (run p w) = w.
Proof.
  revert w. induction p as [a | e | X c k IH]; intros w; simpl; try reflexivity.
  destruct (exec c w) as [x w'] eqn:E. simpl.
  intros Hq. apply andb_prop in Hq as [Hc Hk].
  pose proof (query_keeps_world c w Hc) as Hw. rewrite E in Hw. simpl in Hw.
  subst w'. apply IH, Hk.
Qed.

Lemma find_app_None {A : Type} (f : A -> bool) (l l' : list A) :
  List.find f l = None -> List.find f (l ++ l') = List.find f l'.
Proof.
  induction l as [|a l IH]; simpl; [reflexivity|].
  destruct (f a); [discriminate | exact IH].
Qed.

(** ** Edits *)

Section Edits.
Context `{utils : Utils}.

(** The edit handler throws when a private edit passes the gates and its
    author has no open thread: line 93 calls a method on [null]. *)
Lemma dm_edit_without_thread_throws (w : World) (msg : Message)
    (oldMessage : OldMessage) :
  u_bot (m_author msg) = false ->
  u_id (m_author msg) ∉ blocklist w ->
  trim (m_content msg) <> trim (default unavailable (old_content oldMessage)) ->
  instanceofPrivateChannel (m_channel msg) = true ->
  find_open_thread_by_user (threads w) (u_id (m_author msg)) = None ->
  run (on_messageUpdate msg oldMessage) w
  = (Threw (TypeError "postSystemMessage"), w).
Proof.
  intros Hbot Hblk Htrim Hpriv Hnone. unfold on_messageUpdate.
  rewrite Hbot. simpl. rewrite bool_decide_eq_false_2 by assumption.
  unfold str_eqb. rewrite bool_decide_eq_false_2 by assumption.
  rewrite Hpriv. simpl. rewrite Hnone. reflexivity.
Qed.

(** C2: an edit in a private channel whose author has no OPEN thread posts
    no SYSTEM message and changes nothing: the world after the handler is
    the world before it, and every request the handler made was a query. *)
Theorem dm_edit_without_open_thread_no_effect (w : World) (msg : Message)
    (oldMessage : OldMessage) :
  instanceofPrivateChannel (m_channel msg) = true ->
  find_open_thread_by_user (threads w) (u_id (m_author msg)) = None ->
  snd (run (on_messageUpdate msg oldMessage) w) = w
  /\ forallb is_query (calls (on_messageUpdate msg oldMessage) w) = true.
Proof.
  intros Hpriv Hnone.
  assert (Hq : forallb is_query (calls (on_messageUpdate msg oldMessage) w)
               = true).
  { unfold on_messageUpdate. destruct (u_bot (m_author msg)); [reflexivity|].
    simpl. destruct (bool_decide _); [reflexivity|].
    destruct (str_eqb _ _); [reflexivity|].
    rewrite Hpriv. simpl. rewrite Hnone. reflexivity. }
  split; [apply queries_keep_world, Hq | exact Hq].
Qed.

(** C3: an edit whose trimmed new content equals its trimmed old content
    (the placeholder of line 83 standing for an old content that is [null])
    makes the handler return with the world unchanged, after at most the
    blocklist query. *)
Theorem edit_without_change_is_ignored (w : World) (msg : Message)
    (oldMessage : OldMessage) :
  trim (m_content msg) = trim (default unavailable (old_content oldMessage)) ->
  run (on_messageUpdate msg oldMessage) w = (Returned tt, w)
  /\ forallb is_blocklist_check (calls (on_messageUpdate msg oldMessage) w)
     = true.
Proof.
  intros Htrim. unfold on_messageUpdate.
  destruct (u_bot (m_author msg)); [split; reflexivity|].
  simpl. destruct (bool_decide _); [split; reflexivity|].
  unfold str_eqb. rewrite bool_decide_eq_true_2 by assumption.
  split; reflexivity.
Qed.

(** C10: an edit whose author is on the blocklist is ignored whichever side
    it comes from: the handler returns after the blocklist query (or before
    it, for a bot), the world is unchanged and no stored chat message is
    updated. *)
Theorem edit_by_blocked_author_is_ignored (w : World) (msg : Message)
    (oldMessage : OldMessage) :
  u_id (m_author msg) ∈ blocklist w ->
  run (on_messageUpdate msg oldMessage) w = (Returned tt, w)
  /\ forallb is_blocklist_check (calls (on_messageUpdate msg oldMessage) w)
     = true.
Proof.
  intros Hblk. unfold on_messageUpdate.
  destruct (u_bot (m_author msg)); [split; reflexivity|].
  simpl. rewrite bool_decide_eq_true_2 by assumption.
  split; reflexivity.
Qed.

End Edits.

(** ** Private messages *)

Section DirectMessages.
Context `{utils : Utils}.

(** What the queued task does when nothing is interleaved with it: it
    resolves the author's OPEN thread, creating it if there is none, and
    appends the message to it as FROM_USER. *)
Lemma task_body_spec (w : World) (msg : Message) :
  exists (t : Thread) (cm : ChatMessage) (w' : World),
    run (task_body (DMTask msg)) w = (Returned tt, w')
    /\ match find_open_thread_by_user (threads w) (u_id (m_author msg)) with
       | Some t0 => t = t0 /\ threads w' = threads w
       | None => threads w' = threads w ++ [t] /\ status t = OPEN
                 /\ user_id t = u_id (m_author msg)
       end
    /\ messages w' = messages w ++ [cm]
    /\ cm_thread_id cm = thread_id t
    /\ direction cm = FROM_USER
    /\ external_message_id cm = Some (m_id msg)
    /\ content cm = m_content msg
    /\ blocklist w' = blocklist w
    /\ queue w' = queue w.
Proof.
  unfold task_body, threads_findOrCreateThreadForUser. simpl.
  destruct (find_open_thread_by_user _ _) as [t0|] eqn:E; simpl.
  - eexists t0, _, _. split; [reflexivity|]. simpl. repeat split.
  - eexists _, _, _. split; [reflexivity|]. simpl. repeat split.
Qed.

(** C5: a private message is queued exactly when its sender is not blocked,
    is not a bot and the message is of the normal type; then the handler
    adds the one task [DMTask msg] to the serial queue and changes nothing
    else, and otherwise it changes nothing at all.  The task it queues, in
    whatever world [w1] the worker later runs it, returns normally after it
    has resolved the author's OPEN thread, or created the channel and the
    OPEN thread when there is none, stored the message under that thread's
    id as FROM_USER and relayed its content into that thread's channel. *)
Theorem dm_enqueued_iff_qualifies (w : World) (msg : Message) :
  instanceofPrivateChannel (m_channel msg) = true ->
  let qualifies :=
    (u_id (m_author msg) ∉ blocklist w) /\ u_bot (m_author msg) = false
    /\ m_type msg = 0%N in
  (existsb is_enqueue (calls (on_messageCreate_dm msg) w) = true
   <-> qualifies)
  /\ (qualifies ->
      run (on_messageCreate_dm msg) w
      = (Returned tt, set_queue (fun q => q ++ [DMTask msg]) w))
  /\ (~ qualifies -> run (on_messageCreate_dm msg) w = (Returned tt, w))
  /\ (forall w1 : World,
        exists (t : Thread) (w' : World),
          run (task_body (DMTask msg)) w1 = (Returned tt, w')
          /\ blocklist w' = blocklist w1 /\ queue w' = queue w1
          /\ match
               find_open_thread_by_user (threads w1) (u_id (m_author msg))
             with
             | Some t0 =>
                 t = t0 /\ threads w' = threads w1
                 /\ outbox w'
                    = outbox w1
                      ++ [ChannelMessageSent (channel_id t) (m_content msg)]
                 /\ messages w'
                    = messages w1
                      ++ [mkChatMessage (thread_id t) (Some (m_id msg))
                            FROM_USER (u_id (m_author msg)) (m_content msg)
                            (m_attachments msg) (now w1) false false]
             | None =>
                 t = mkThread (N.of_nat (length (threads w1)))
                       (u_id (m_author msg))
                       (snowflake_of_N (next_channel w1)) OPEN (now w1) None
                 /\ threads w' = threads w1 ++ [t]
                 /\ outbox w'
                    = outbox w1
                      ++ [ChannelCreated (channel_id t) (u_id (m_author msg));
                          ChannelMessageSent (channel_id t) (m_content msg)]
                 /\ messages w'
                    = messages w1
                      ++ [mkChatMessage (thread_id t) (Some (m_id msg))
                            FROM_USER (u_id (m_author msg)) (m_content msg)
                            (m_attachments msg) (now w1 + 1)%Z false false]
             end).
Proof.
  intros Hpriv qualifies. subst qualifies.
  assert (Htask : forall w1 : World,
    exists (t : Thread) (w' : World),
      run (task_body (DMTask msg)) w1 = (Returned tt, w')
      /\ blocklist w' = blocklist w1 /\ queue w' = queue w1
      /\ match find_open_thread_by_user (threads w1) (u_id (m_author msg)) with
         | Some t0 =>
             t = t0 /\ threads w' = threads w1
             /\ outbox w'
                = outbox w1
                  ++ [ChannelMessageSent (channel_id t) (m_content msg)]
             /\ messages w'
                = messages w1
                  ++ [mkChatMessage (thread_id t) (Some (m_id msg))
                        FROM_USER (u_id (m_author msg)) (m_content msg)
                        (m_attachments msg) (now w1) false false]
         | None =>
             t = mkThread (N.of_nat (length (threads w1)))
                   (u_id (m_author msg))
                   (snowflake_of_N (next_channel w1)) OPEN (now w1) None
             /\ threads w' = threads w1 ++ [t]
             /\ outbox w'
                = outbox w1
                  ++ [ChannelCreated (channel_id t) (u_id (m_author msg));
                      ChannelMessageSent (channel_id t) (m_content msg)]
             /\ messages w'
                = messages w1
                  ++ [mkChatMessage (thread_id t) (Some (m_id msg))
                        FROM_USER (u_id (m_author msg)) (m_content msg)
                        (m_attachments msg) (now w1 + 1)%Z false false]
         end).
  { intros w1. unfold task_body, threads_findOrCreateThreadForUser. simpl.
    destruct (find_open_thread_by_user _ _) as [t0|]; simpl.
    - exists t0. eexists. split; [reflexivity|]. simpl. repeat split.
    - eexists _, _. split; [reflexivity|]. simpl. repeat split.
      rewrite <- app_assoc. reflexivity. }
  unfold on_messageCreate_dm.
  rewrite Hpriv. simpl.
  destruct (u_bot (m_author msg)); simpl.
  { split; [|split; [|split]]; try reflexivity; try exact Htask.
    - split; [discriminate | intros (_ & H & _); discriminate H].
    - intros (_ & H & _); discriminate H. }
  destruct (N.eqb_spec (m_type msg) 0) as [Hty | Hty]; simpl.
  2: { split; [|split; [|split]]; try reflexivity; try exact Htask.
       - split; [discriminate | intros (_ & _ & H); contradiction].
       - intros (_ & _ & H); contradiction. }
  destruct (decide (u_id (m_author msg) ∈ blocklist w)) as [Hin | Hout].
  - rewrite bool_decide_eq_true_2 by assumption. simpl.
    split; [|split; [|split]]; try reflexivity; try exact Htask.
    + split; [discriminate | intros (H & _); contradiction].
    + intros (H & _); contradiction.
  - rewrite bool_decide_eq_false_2 by assumption. simpl.
    split; [|split; [|split]]; try reflexivity; try exact Htask.
    + split; auto.
    + intros H; exfalso; apply H; auto.
Qed.

(** Whatever the world, the queued task never queries the blocklist. *)
Lemma task_makes_no_blocklist_check (w : World) (t : Task) :
  existsb is_blocklist_check (calls (task_body t) w) = false.
Proof.
  destruct t as [msg]. unfold task_body, threads_findOrCreateThreadForUser.
  simpl. destruct (find_open_thread_by_user _ _); reflexivity.
Qed.

(** The task does the same whatever the blocklist holds. *)
Lemma task_ignores_blocklist (w : World) (t : Task)
    (f : gset Snowflake -> gset Snowflake) :
  run (task_body t) (set_blocklist f w)
  = (fst (run (task_body t) w), set_blocklist f (snd (run (task_body t) w))).
Proof.
  destruct t as [msg]. unfold task_body, threads_findOrCreateThreadForUser.
  simpl. destruct (find_open_thread_by_user _ _); reflexivity.
Qed.

(** C9: the handler of a private message queries the blocklist at most
    once, exactly once when the message is from a human and of the normal
    type, and always before it enqueues; the queued task makes no blocklist
    query.  So when the sender passes the check and is blocked after the
    enqueue and before the task runs, the task does what it would have done
    otherwise: it returns normally and appends the message as FROM_USER to
    the sender's thread. *)
Theorem blocklist_checked_once_before_enqueue (w : World) (msg : Message) :
  instanceofPrivateChannel (m_channel msg) = true ->
  calls (on_messageCreate_dm msg) w
  = (if u_bot (m_author msg) || negb (m_type msg =? 0)%N then []
     else any (BlockedHas (u_id (m_author msg)))
          :: (if bool_decide (u_id (m_author msg) ∈ blocklist w) then []
              else [any (QueueAdd (DMTask msg))]))
  /\ (u_bot (m_author msg) = false -> m_type msg = 0%N ->
      u_id (m_author msg) ∉ blocklist w ->
      let w1 := snd (run (on_messageCreate_dm msg) w) in
      let w2 := snd (run (blocked_block (u_id (m_author msg))) w1) in
      queue w1 = queue w ++ [DMTask msg]
      /\ u_id (m_author msg) ∈ blocklist w2
      /\ existsb is_blocklist_check (calls (task_body (DMTask msg)) w2)
         = false
      /\ run (task_body (DMTask msg)) w2
         = (fst (run (task_body (DMTask msg)) w1),
            set_blocklist (fun b => {[u_id (m_author msg)]} ∪ b)
              (snd (run (task_body (DMTask msg)) w1)))
      /\ exists (t : Thread) (cm : ChatMessage) (w3 : World),
          run (task_body (DMTask msg)) w2 = (Returned tt, w3)
          /\ messages w3 = messages w2 ++ [cm]
          /\ cm_thread_id cm = thread_id t
          /\ direction cm = FROM_USER
          /\ external_message_id cm = Some (m_id msg)
          /\ content cm = m_content msg
          /\ find_open_thread_by_user (threads w3) (u_id (m_author msg))
             = Some t).
Proof.
  intros Hpriv. split.
  - unfold on_messageCreate_dm. rewrite Hpriv. simpl.
    destruct (u_bot (m_author msg)); [reflexivity|].
    destruct (m_type msg =? 0)%N; [|reflexivity]. simpl.
    destruct (bool_decide _); reflexivity.
  - intros Hbot Hty Hblk w1 w2.
    assert (Hw1 : w1 = set_queue (fun q => q ++ [DMTask msg]) w).
    { subst w1. unfold on_messageCreate_dm.
      rewrite Hpriv, Hbot, Hty. simpl.
      rewrite bool_decide_eq_false_2 by assumption. reflexivity. }
    split; [rewrite Hw1; reflexivity|].
    split; [subst w2; simpl; set_solver|].
    split; [apply task_makes_no_blocklist_check|].
    split; [apply (task_ignores_blocklist w1 (DMTask msg))|].
    destruct (task_body_spec w2 msg)
      as (t & cm & w3 & Hrun & Hthr & Hmsgs & Hid & Hdir & Hext & Hcont & _).
    exists t, cm, w3. repeat (split; [assumption|]).
    destruct (find_open_thread_by_user (threads w2) _) as [t0|] eqn:E.
    + destruct Hthr as [-> ->]. exact E.
    + destruct Hthr as (-> & Hopen & Huser).
      unfold find_open_thread_by_user in *.
      rewrite (find_app_None _ _ _ E). simpl.
      unfold is_open, of_user.
      rewrite !bool_decide_eq_true_2 by assumption. reflexivity.
Qed.

End DirectMessages.

(** ** Staff channels and staff commands *)

Section StaffChannel.
Context `{utils : Utils} (config : Config).

Lemma update_matching_pointwise (t : N) (ext : Snowflake)
    (f : ChatMessage -> ChatMessage) (ms : list ChatMessage) :
  Forall2 (fun old new => new = if matches t ext old then f old else old)
    ms (update_matching t ext f ms).
Proof.
  induction ms as [|m ms IH]; simpl; constructor; [reflexivity | exact IH].
Qed.




(** C6: the deletion of a human moderator's message on the inbox server, in
    the channel of the OPEN thread [t], flags as deleted the chat messages
    of [t] recorded for that message, keeps their content, touches no other
    chat message and sends nothing; a deletion that misses one of these
    conditions changes nothing. *)
Theorem staff_delete_soft_deletes (w : World) (msg : Message) :
  let applies (t : Thread) :=
    u_bot (m_author msg) = false /\ messageIsOnInboxServer msg = true
    /\ isStaff (m_member msg) = true
    /\ find_open_thread_by_channel (threads w) (ch_id (m_channel msg))
       = Some t in
  (forall t : Thread, applies t ->
     exists w' : World,
       run (on_messageDelete msg) w = (Returned tt, w')
       /\ outbox w' = outbox w /\ threads w' = threads w
       /\ blocklist w' = blocklist w /\ queue w' = queue w
       /\ Forall2
            (fun old new =>
               content new = content old
               /\ if matches (thread_id t) (m_id msg) old
                  then new = soft_deleted old /\ deleted new = true
                  else new = old)
            (messages w) (messages w'))
  /\ ((forall t : Thread, ~ applies t) ->
      run (on_messageDelete msg) w = (Returned tt, w)).
Proof.
  intros applies. subst applies. split.
  - intros t (Hbot & Hinbox & Hstaff & Hfind). unfold on_messageDelete.
    rewrite Hbot, Hinbox, Hstaff. simpl. rewrite Hfind. simpl.
    eexists; split; [reflexivity|]. simpl. repeat (split; [reflexivity|]).
    eapply Forall2_impl; [apply update_matching_pointwise|].
    intros old new ->. simpl. destruct (matches _ _ old); auto.
  - intros Hnone. unfold on_messageDelete.
    destruct (u_bot (m_author msg)) eqn:Hbot; [reflexivity|].
    destruct (messageIsOnInboxServer msg) eqn:Hinbox; [|reflexivity].
    destruct (isStaff (m_member msg)) eqn:Hstaff; [|reflexivity].
    simpl.
    destruct (find_open_thread_by_channel _ _) as [t|] eqn:Hfind;
      [|reflexivity].
    exfalso. apply (Hnone t). auto.
Qed.

(** C8: [block], [unblock] and [logs] called with arguments that
    [getUserMention] does not recognise return at once: no request is made,
    the world is unchanged, no confirmation is posted; and that whether or
    not the command was typed in a thread channel. *)
Theorem malformed_user_argument_is_ignored (w : World) (msg : Message)
    (args : list jsstring) (thread : option Thread) :
  args <> [] ->
  getUserMention (join (js " ") args) = None ->
  (run (cmd_block msg args thread) w = (Returned tt, w)
   /\ calls (cmd_block msg args thread) w = [])
  /\ (run (cmd_unblock msg args thread) w = (Returned tt, w)
      /\ calls (cmd_unblock msg args thread) w = [])
  /\ (run (cmd_logs msg args thread) w = (Returned tt, w)
      /\ calls (cmd_logs msg args thread) w = []).
Proof.
  intros Hargs Hparse.
  unfold cmd_block, cmd_unblock, cmd_logs, on_user_argument.
  destruct args as [|a args]; [contradiction|].
  simpl length. simpl Nat.ltb. cbv iota. rewrite Hparse.
  repeat split.
Qed.

End StaffChannel.

(** ** The log listing *)

#[global] Instance created_le_trans : Transitive created_le.
Proof. unfold created_le. intros a b c. lia. Qed.

#[global] Instance created_le_total : Total created_le.
Proof. unfold created_le. intros a b. lia. Qed.

Lemma split_app_sep (sep : N) (a b : jsstring) :
  sep ∉ a -> split sep (a ++ sep :: b) = a :: split sep b.
Proof.
  induction a as [|c a IH]; intros Hnot; simpl.
  - rewrite N.eqb_refl. reflexivity.
  - apply not_elem_of_cons in Hnot as [Hc Ha].
    destruct (N.eqb_spec c sep) as [->|_]; [contradiction|].
    rewrite (IH Ha). reflexivity.
Qed.

Lemma split_no_sep (sep : N) (a : jsstring) :
  sep ∉ a -> split sep a = [a].
Proof.
  induction a as [|c a IH]; intros Hnot; simpl; [reflexivity|].
  apply not_elem_of_cons in Hnot as [Hc Ha].
  destruct (N.eqb_spec c sep) as [->|_]; [contradiction|].
  rewrite (IH Ha). reflexivity.
Qed.

(** Splitting what [join] glued gives the pieces back, when no piece holds
    the separator; [join] of no piece is the empty string, which splits
    into one empty piece. *)
Lemma split_join (sep : N) (xs : list jsstring) :
  Forall (fun x => sep ∉ x) xs ->
  split sep (join [sep] xs) = match xs with [] => [[]] | _ => xs end.
Proof.
  induction 1 as [|x xs Hx Hxs IH]; [reflexivity|].
  destruct xs as [|y ys].
  - simpl. apply split_no_sep, Hx.
  - change (join [sep] (x :: y :: ys)) with (x ++ sep :: join [sep] (y :: ys)).
    rewrite (split_app_sep _ _ _ Hx), IH. reflexivity.
Qed.

Lemma StronglySorted_rev {A : Type} (R : relation A) (l : list A) :
  StronglySorted R l -> StronglySorted (flip R) (rev l).
Proof.
  induction 1 as [|a l Hl IH Ha]; simpl; [constructor|].
  apply StronglySorted_app_2; [|exact IH|repeat constructor].
  intros x1 x2 H1 H2. apply list_elem_of_singleton in H2 as ->.
  rewrite Forall_forall in Ha. apply Ha.
  apply list_elem_of_In, in_rev, list_elem_of_In, H1.
Qed.

Section Logs.
Context `{utils : Utils}.

Lemma run_post_chunks (w : World) (msg : Message)
    (chunks : list (list jsstring)) :
  exists w' : World,
    run (post_chunks msg chunks) w = (Returned tt, w')
    /\ outbox w'
       = outbox w
         ++ map (fun lines =>
                   ChannelMessageSent (ch_id (m_channel msg)) (join [LF] lines))
              chunks
    /\ threads w' = threads w /\ messages w' = messages w
    /\ blocklist w' = blocklist w /\ queue w' = queue w.
Proof.
  revert w. induction chunks as [|c chunks IH]; intros w; simpl.
  - exists w. rewrite app_nil_r. repeat split.
  - destruct (IH (emit (ChannelMessageSent (ch_id (m_channel msg))
                          (join [LF] c)) w))
      as (w' & Hrun & Hout & Hthr & Hmsg & Hblk & Hq).
    exists w'. split; [exact Hrun|]. rewrite Hout. simpl.
    rewrite <- app_assoc. repeat split; assumption.
Qed.

(** C7: the closed threads the registry returns for a user are exactly that
    user's CLOSED threads, in ascending order of creation; the [logs]
    command formats them in the reverse order, newest first: when no line
    holds a line feed, the lines it cuts into chunks of 15 and posts are the
    header followed by one line per thread from the newest to the oldest. *)
Theorem logs_lists_closed_threads_newest_first (w : World) (msg : Message)
    (userId : Snowflake) :
  let closed := get_closed_threads_by_user (threads w) userId in
  LF ∉ userId ->
  (forall t : Thread, t ∈ closed -> LF ∉ log_line t) ->
  closed ≡ₚ List.filter (fun t => is_closed t && of_user userId t) (threads w)
  /\ StronglySorted created_le closed
  /\ StronglySorted (flip created_le) (rev closed)
  /\ log_chunks userId closed
     = chunk (log_header userId
              :: match closed with
                 | [] => [[]]
                 | _ => map log_line (rev closed)
                 end) 15
  /\ exists w' : World,
       run (getLogs msg userId) w = (Returned tt, w')
       /\ outbox w'
          = outbox w
            ++ map (fun lines =>
                      ChannelMessageSent (ch_id (m_channel msg))
                        (join [LF] lines))
                 (log_chunks userId closed)
       /\ threads w' = threads w /\ messages w' = messages w
       /\ blocklist w' = blocklist w /\ queue w' = queue w.
Proof.
  intros closed Hid Hlines.
  assert (Hsorted : StronglySorted created_le closed).
  { apply (StronglySorted_merge_sort created_le). }
  split; [apply (merge_sort_Permutation created_le)|].
  split; [exact Hsorted|].
  split; [apply StronglySorted_rev, Hsorted|].
  split.
  - unfold log_chunks. f_equal.
    change (log_header userId ++ [LF] ++ join [LF] (map log_line (rev closed)))
      with (log_header userId
            ++ LF :: join [LF] (map log_line (rev closed))).
    rewrite split_app_sep.
    + rewrite split_join.
      * f_equal. destruct closed as [|t ts]; [reflexivity|].
        destruct (rev (t :: ts)) eqn:E; [|reflexivity].
        apply (f_equal (@length _)) in E. rewrite length_rev in E.
        discriminate E.
      * apply Forall_forall. intros x Hx.
        apply list_elem_of_fmap in Hx as (t & -> & Ht). apply Hlines.
        apply list_elem_of_In, in_rev, list_elem_of_In, Ht.
    + unfold log_header. rewrite !not_elem_of_app.
      split; [|split]; [|exact Hid|];
        apply (bool_decide_unpack _); vm_compute; exact I.
  - unfold getLogs, threads_getClosedThreadsByUserId. simpl.
    apply run_post_chunks.
Qed.

End Logs.

(** ** One thread for concurrent first messages *)

Lemma exec_set_queue {X : Type} (c : Call X) (w : World)
    (f : list Task -> list Task) :
  is_registry_call (any c) = true ->
  exec c (set_queue f w) = (fst (exec c w), set_queue f (snd (exec c w))).
Proof. destruct c; simpl; intros H; try discriminate H; reflexivity. Qed.

Lemma exec_keeps_gate {X : Type} (c : Call X) (w : World) :
  is_registry_call (any c) = true ->
  queue (snd (exec c w)) = queue w /\ blocklist (snd (exec c w)) = blocklist w.
Proof. destruct c; simpl; intros H; try discriminate H; split; reflexivity. Qed.

Lemma run_set_queue {A : Type} (p : Prog A) (w : World)
    (f : list Task -> list Task) :
  registry_prog p ->
  run p (set_queue f w) = (fst (run p w), set_queue f (snd (run p w))).
Proof.
  revert w. induction p as [a | e | X c k IH]; intros w Hp; try reflexivity.
  destruct Hp as [Hc Hk]. simpl. rewrite (exec_set_queue c w f Hc).
  destruct (exec c w) as [x w']. simpl. apply IH, Hk.
Qed.

Lemma task_body_registry (t : Task) : registry_prog (task_body t).
Proof.
  destruct t as [msg]. unfold task_body, threads_findOrCreateThreadForUser.
  simpl. split; [reflexivity|]. intros [t|]; simpl;
    repeat (split; [reflexivity|]; intros ?); exact I.
Qed.

Lemma run_tasks_set_queue (ts : list Task) (w : World)
    (f : list Task -> list Task) :
  run_tasks ts (set_queue f w) = set_queue f (run_tasks ts w).
Proof.
  revert w. induction ts as [|t ts IH]; intros w; simpl; [reflexivity|].
  rewrite (run_set_queue _ _ _ (task_body_registry t)). simpl. apply IH.
Qed.

Section OneThread.
Context (w0 : World) (u : User) (msgs : list Message).
Hypothesis u_human : u_bot u = false.

Lemma on_messageCreate_dm_first (m : Message) :
  first_dm u m ->
  on_messageCreate_dm m
  = Vis (BlockedHas (u_id u))
      (fun isBlocked => if isBlocked then Ret tt
                        else messageQueue_add (DMTask m)).
Proof.
  intros (Hu & Hpriv & Hty). unfold on_messageCreate_dm.
  rewrite Hpriv, Hu, u_human, Hty. reflexivity.
Qed.

Lemma find_open_after_insert (ts : list Thread) (t : Thread) :
  find_open_thread_by_user ts (u_id u) = None ->
  status t = OPEN -> user_id t = u_id u ->
  find_open_thread_by_user (ts ++ [t]) (u_id u) = Some t.
Proof.
  intros Hnone Hopen Huser. unfold find_open_thread_by_user in *.
  rewrite (find_app_None _ _ _ Hnone). simpl. unfold is_open, of_user.
  rewrite !bool_decide_eq_true_2 by assumption. reflexivity.
Qed.

(** Tasks run in sequence once the thread exists: each finds it. *)
Lemma run_tasks_found (ms : list Message) (w : World) (t : Thread) :
  Forall (first_dm u) ms ->
  find_open_thread_by_user (threads w) (u_id u) = Some t ->
  exists new : list ChatMessage,
    threads (run_tasks (map DMTask ms) w) = threads w
    /\ messages (run_tasks (map DMTask ms) w) = messages w ++ new
    /\ Forall (fun cm => cm_thread_id cm = thread_id t
                         /\ direction cm = FROM_USER) new
    /\ map external_message_id new = map (fun m => Some (m_id m)) ms.
Proof.
  intros Hms. revert w. induction Hms as [|m ms Hm Hms IH]; intros w Hfind.
  - exists []. simpl. rewrite app_nil_r. repeat split. constructor.
  - destruct (task_body_spec w m)
      as (t' & cm & w' & Hrun & Hthr & Hmsgs & Hid & Hdir & Hext & _).
    destruct Hm as (Hu & _). rewrite Hu, Hfind in Hthr.
    destruct Hthr as [-> Hthr].
    cbn [map run_tasks]. rewrite Hrun. cbn [snd].
    destruct (IH w') as (new & Ht & Hm' & Hall & Hexts).
    { rewrite Hthr. exact Hfind. }
    exists (cm :: new). rewrite Ht, Hm', Hmsgs, Hthr, <- app_assoc. simpl.
    repeat split; [constructor; auto | congruence].
Qed.

(** Tasks run in sequence from a store without an open thread of [u]: the
    first creates the thread, the others find it. *)
Lemma run_tasks_first (ms : list Message) (w : World) :
  ms <> [] -> Forall (first_dm u) ms ->
  find_open_thread_by_user (threads w) (u_id u) = None ->
  one_thread_for w (u_id u) ms (run_tasks (map DMTask ms) w).
Proof.
  intros Hne Hms Hnone. destruct ms as [|m ms]; [contradiction|].
  apply Forall_cons in Hms as [Hm Hms].
  destruct (task_body_spec w m)
    as (t & cm & w' & Hrun & Hthr & Hmsgs & Hid & Hdir & Hext & _).
  destruct Hm as (Hu & _). rewrite Hu, Hnone in Hthr.
  destruct Hthr as (Hthr & Hopen & Huser).
  cbn [map run_tasks]. rewrite Hrun. cbn [snd].
  destruct (run_tasks_found ms w' t Hms) as (new & Ht & Hm' & Hall & Hexts).
  { rewrite Hthr. apply find_open_after_insert; assumption. }
  exists t, (cm :: new). rewrite Ht, Hm', Hmsgs, Hthr, <- app_assoc. simpl.
  repeat split; try assumption; [constructor; auto|].
  rewrite Hext, Hexts. reflexivity.
Qed.

Lemma one_thread_for_perm (w : World) (ms ms' : list Message) :
  ms ≡ₚ ms' -> one_thread_for w0 (u_id u) ms w ->
  one_thread_for w0 (u_id u) ms' w.
Proof.
  intros Hp (t & new & H1 & H2 & H3 & H4 & H5 & H6).
  exists t, new. repeat split; try assumption.
  rewrite H6. apply fmap_Permutation, Hp.
Qed.

Lemma map_lookup {A B : Type} (f : A -> B) (l : list A) (i : nat) :
  map f l !! i = f <$> (l !! i).
Proof. apply list_lookup_fmap. Qed.

Lemma map_insert {A B : Type} (f : A -> B) (l : list A) (i : nat) (x : A) :
  <[i := f x]> (map f l) = map f (<[i := x]> l).
Proof. symmetry. apply list_fmap_insert. Qed.

Lemma pending_split (stages : list (Message * Stage)) (i : nat)
    (m : Message) (st st' : Stage) :
  stages !! i = Some (m, st) ->
  exists before after : list Message,
    pending stages
    = before ++ match st with Done => [] | _ => [m] end ++ after
    /\ pending (<[i := (m, st')]> stages)
       = before ++ match st' with Done => [] | _ => [m] end ++ after.
Proof.
  intros Hi. exists (pending (take i stages)), (pending (drop (S i) stages)).
  split.
  - rewrite <- (take_drop_middle _ _ _ Hi) at 1. unfold pending.
    rewrite flat_map_app. reflexivity.
  - rewrite insert_take_drop by (eapply lookup_lt_Some, Hi). unfold pending.
    rewrite flat_map_app. reflexivity.
Qed.

Lemma inv_handler_step (i : nat) (s s' : Sys) :
  Inv w0 u msgs s -> sys_step (Handler i) s = Some s' -> Inv w0 u msgs s'.
Proof.
  intros (stages & Hh & Hq & Hblk & Hwk & Hgood) Hstep.
  cbn [sys_step] in Hstep. rewrite Hh, map_lookup in Hstep.
  destruct (stages !! i) as [[m st]|] eqn:Hi; [|discriminate Hstep].
  pose proof (Forall_lookup_1 _ _ _ _ Hq Hi) as Hm. cbn [fst] in Hm.
  destruct (pending_split stages i m st
              match st with Received => Checked | _ => Done end Hi)
    as (before & after & Hp & Hp').
  destruct st; cbn [fmap option_fmap option_map stage_prog snd fst] in Hstep.
  - (* the blocklist check *)
    rewrite (on_messageCreate_dm_first m Hm) in Hstep. cbn [exec] in Hstep.
    rewrite bool_decide_eq_false_2 in Hstep by assumption.
    injection Hstep as <-.
    exists (<[i := (m, Checked)]> stages). cbn [handlers world worker].
    split; [apply (map_insert stage_prog stages i (m, Checked))|].
    split; [apply Forall_insert; assumption|].
    split; [assumption|]. split; [assumption|].
    intros later Hl. rewrite Hp' in Hl. rewrite <- Hp in Hl.
    apply (Hgood later Hl).
  - (* the enqueue *)
    cbn [messageQueue_add call exec] in Hstep. injection Hstep as <-.
    exists (<[i := (m, Done)]> stages). cbn [handlers world worker].
    split; [apply (map_insert stage_prog stages i (m, Done))|].
    split; [apply Forall_insert; assumption|].
    split; [assumption|].
    split; [assumption|].
    intros later Hl. rewrite Hp' in Hl. cbn [app] in Hl.
    assert (Hl' : m :: later ≡ₚ pending stages).
    { rewrite Hp, Hl. cbn [app]. apply Permutation_middle. }
    specialize (Hgood _ Hl'). unfold outcome_of in *.
    cbn [world worker] in *.
    replace (finish (worker s) (set_queue (fun q => q ++ [DMTask m]) (world s)))
      with (set_queue (fun q => q ++ [DMTask m]) (finish (worker s) (world s))).
    2: { destruct (worker s) as [p|]; [|reflexivity]. cbn [finish].
         rewrite (run_set_queue p _ _ Hwk). reflexivity. }
    rewrite run_tasks_set_queue. cbn [queue set_queue].
    rewrite <- app_assoc. exact Hgood.
  - discriminate Hstep.
Qed.

Lemma inv_worker_step (s s' : Sys) :
  Inv w0 u msgs s -> sys_step Worker s = Some s' -> Inv w0 u msgs s'.
Proof.
  intros (stages & Hh & Hq & Hblk & Hwk & Hgood) Hstep.
  cbn [sys_step] in Hstep. unfold outcome_of in Hgood.
  destruct (worker s) as [[a | e | X c k]|] eqn:Hw.
  - injection Hstep as <-. exists stages. repeat (split; [assumption|]).
    exact Hgood.
  - injection Hstep as <-. exists stages. repeat (split; [assumption|]).
    exact Hgood.
  - destruct Hwk as [Hc Hk].
    destruct (exec_keeps_gate c (world s) Hc) as [Hqueue Hblock].
    cbn [finish run] in Hgood.
    destruct (exec c (world s)) as [x w'] eqn:E. injection Hstep as <-.
    cbn [snd] in Hqueue, Hblock.
    exists stages. cbn [handlers world worker].
    split; [assumption|]. split; [assumption|].
    split; [rewrite Hblock; assumption|]. split; [apply Hk|].
    unfold outcome_of. cbn [world worker finish]. rewrite Hqueue. exact Hgood.
  - destruct (queue (world s)) as [|t q] eqn:Hqueue; [discriminate Hstep|].
    injection Hstep as <-. exists stages. cbn [handlers world worker].
    split; [assumption|]. split; [assumption|]. split; [assumption|].
    split; [apply task_body_registry|].
    intros later Hl. specialize (Hgood later Hl).
    unfold outcome_of. cbn [world worker finish].
    rewrite (run_set_queue _ _ _ (task_body_registry t)). cbn [snd].
    rewrite run_tasks_set_queue. exact Hgood.
Qed.

Lemma inv_exec (sched : list Choice) (s s' : Sys) :
  Inv w0 u msgs s -> sys_exec sched s = Some s' -> Inv w0 u msgs s'.
Proof.
  revert s. induction sched as [|c sched IH]; intros s HI Hexec.
  - injection Hexec as <-. exact HI.
  - cbn [sys_exec] in Hexec.
    destruct (sys_step c s) as [s1|] eqn:Hstep; [|discriminate Hexec].
    apply (IH s1); [|exact Hexec].
    destruct c; [eapply inv_handler_step | eapply inv_worker_step]; eauto.
Qed.

Lemma pending_received (ms : list Message) :
  pending (map (fun m => (m, Received)) ms) = ms.
Proof. induction ms as [|m ms IH]; simpl; congruence. Qed.

Lemma inv_deliver :
  msgs <> [] -> Forall (first_dm u) msgs -> u_id u ∉ blocklist w0 ->
  find_open_thread_by_user (threads w0) (u_id u) = None ->
  queue w0 = [] ->
  Inv w0 u msgs (deliver w0 msgs).
Proof.
  intros Hne Hms Hblk Hnone Hqueue.
  exists (map (fun m => (m, Received)) msgs). cbn [deliver handlers world worker].
  split; [rewrite map_map; reflexivity|].
  split; [apply Forall_fmap; exact Hms|].
  split; [assumption|]. split; [exact I|].
  intros later Hl. rewrite pending_received in Hl.
  unfold outcome_of, deliver. cbn [world worker finish]. rewrite Hqueue.
  cbn [app]. rewrite <- run_tasks_set_queue.
  apply (one_thread_for_perm _ later msgs Hl).
  assert (Hlater : Forall (first_dm u) later) by (rewrite Hl; exact Hms).
  assert (Hne' : later <> []).
  { intros ->. apply Permutation_nil_l in Hl. apply Hne. symmetry. exact Hl. }
  destruct (run_tasks_first later (set_queue (fun _ => []) w0) Hne' Hlater Hnone)
    as (t & new & H). exists t, new. exact H.
Qed.

Lemma stage_finished (ms : Message * Stage) :
  first_dm u ms.1 -> finished (stage_prog ms) = true -> ms.2 = Done.
Proof.
  destruct ms as [m st]. cbn [fst snd]. intros Hm.
  destruct st; unfold stage_prog; cbn [fst snd]; [| |reflexivity].
  - rewrite (on_messageCreate_dm_first m Hm). discriminate.
  - discriminate.
Qed.

Lemma inv_quiescent (s : Sys) :
  Inv w0 u msgs s -> quiescent s = true -> one_thread_for w0 (u_id u) msgs (world s).
Proof.
  intros (stages & Hh & Hq & Hblk & Hwk & Hgood) Hquiet.
  unfold quiescent in Hquiet.
  apply andb_prop in Hquiet as [Hquiet Hqueue].
  apply andb_prop in Hquiet as [Hfin Hidle].
  assert (Hp : pending stages = []).
  { rewrite Hh in Hfin. clear Hh Hgood.
    induction Hq as [|ms stages Hm Hq IH]; [reflexivity|].
    cbn [map forallb] in Hfin. apply andb_prop in Hfin as [Hf Hfin].
    cbn [pending flat_map]. rewrite (stage_finished ms Hm Hf).
    apply IH, Hfin. }
  specialize (Hgood [] ltac:(rewrite Hp; reflexivity)).
  unfold outcome_of in Hgood.
  destruct (worker s); [discriminate Hidle|].
  destruct (queue (world s)); [|discriminate Hqueue].
  destruct Hgood as (t & new & H). exists t, new. exact H.
Qed.

End OneThread.

(** *** Every delivery can run to quiescence *)

Lemma sys_exec_app (a b : list Choice) (s : Sys) :
  sys_exec (a ++ b) s
  = match sys_exec a s with Some s' => sys_exec b s' | None => None end.
Proof.
  revert s. induction a as [|c a IH]; intros s; simpl; [reflexivity|].
  destruct (sys_step c s); [apply IH | reflexivity].
Qed.

(** The worker runs its task to the end and drops it. *)
Lemma worker_finishes_task (p : Prog unit) (w : World)
    (hs : list (Prog unit)) :
  exists sched : list Choice,
    sys_exec sched (mkSys w hs (Some p)) = Some (mkSys (snd (run p w)) hs None).
Proof.
  revert w. induction p as [a | e | X c k IH]; intros w.
  - exists [Worker]. reflexivity.
  - exists [Worker]. reflexivity.
  - destruct (exec c w) as [x w'] eqn:E.
    destruct (IH x w') as [sched Hsched].
    exists (Worker :: sched). cbn [sys_exec sys_step worker world handlers run].
    rewrite E. exact Hsched.
Qed.

(** The worker empties the queue. *)
Lemma worker_drains_queue (q : list Task) (w : World)
    (hs : list (Prog unit)) :
  queue w = q ->
  exists (sched : list Choice) (w' : World),
    sys_exec sched (mkSys w hs None) = Some (mkSys w' hs None)
    /\ queue w' = [].
Proof.
  revert w. induction q as [|t q IH]; intros w Hq.
  - exists [], w. split; [reflexivity | exact Hq].
  - destruct (worker_finishes_task (task_body t) (set_queue (fun _ => q) w) hs)
      as [sched1 H1].
    destruct (IH (snd (run (task_body t) (set_queue (fun _ => q) w))))
      as (sched2 & w' & H2 & Hq').
    { rewrite (run_set_queue _ _ _ (task_body_registry t)). reflexivity. }
    exists (Worker :: sched1 ++ sched2), w'. split; [|exact Hq'].
    cbn [sys_exec sys_step worker world handlers]. rewrite Hq.
    rewrite sys_exec_app, H1. exact H2.
Qed.

(** The handlers of private messages of an unblocked human all end. *)
Lemma handlers_finish (u : User) (todo : list Message)
    (fin : list (Prog unit)) (w : World) :
  u_bot u = false -> Forall (first_dm u) todo ->
  u_id u ∉ blocklist w -> forallb finished fin = true ->
  exists (sched : list Choice) (s' : Sys),
    sys_exec sched (mkSys w (fin ++ map on_messageCreate_dm todo) None)
    = Some s'
    /\ forallb finished (handlers s') = true /\ worker s' = None.
Proof.
  intros Hbot Htodo. revert fin w.
  induction Htodo as [|m todo Hm Htodo IH]; intros fin w Hblk Hfin.
  - exists [], (mkSys w fin None). cbn [map]. rewrite app_nil_r.
    split; [reflexivity | split; [exact Hfin | reflexivity]].
  - destruct (IH (fin ++ [Ret tt]) (set_queue (fun q => q ++ [DMTask m]) w))
      as (sched & s' & Hexec & Hdone & Hidle).
    { exact Hblk. }
    { rewrite forallb_app, Hfin. reflexivity. }
    exists (Handler (length fin) :: Handler (length fin) :: sched), s'.
    split; [|split; assumption].
    cbn [map]. rewrite (on_messageCreate_dm_first u Hbot m Hm).
    cbn [sys_exec sys_step handlers world worker].
    rewrite list_lookup_middle by reflexivity. cbn [exec].
    rewrite bool_decide_eq_false_2 by assumption.
    rewrite insert_app_r_alt, Nat.sub_diag by reflexivity.
    cbn [insert list_insert handlers world worker].
    rewrite list_lookup_middle by reflexivity.
    cbn [messageQueue_add call exec].
    rewrite insert_app_r_alt, Nat.sub_diag by reflexivity.
    cbn [insert list_insert].
    rewrite <- app_assoc in Hexec. exact Hexec.
Qed.

Lemma deliveries_reach_quiescence (w : World) (u : User)
    (msgs : list Message) :
  u_bot u = false -> Forall (first_dm u) msgs -> u_id u ∉ blocklist w ->
  exists (sched : list Choice) (s' : Sys),
    sys_exec sched (deliver w msgs) = Some s' /\ quiescent s' = true.
Proof.
  intros Hbot Hms Hblk.
  destruct (handlers_finish u msgs [] w Hbot Hms Hblk eq_refl)
    as (sched1 & [w1 hs1 wk1] & Hexec1 & Hfin & Hidle).
  cbn [worker handlers] in Hfin, Hidle. subst wk1.
  destruct (worker_drains_queue (queue w1) w1 hs1 eq_refl)
    as (sched2 & w2 & Hexec2 & Hq).
  exists (sched1 ++ sched2), (mkSys w2 hs1 None). split.
  - rewrite sys_exec_app. unfold deliver. cbn [app] in Hexec1.
    rewrite Hexec1. exact Hexec2.
  - unfold quiescent. cbn [handlers worker world]. rewrite Hfin, Hq.
    reflexivity.
Qed.

Lemma filter_find_None {A : Type} (f : A -> bool) (l : list A) :
  List.find f l = None -> List.filter f l = [].
Proof.
  induction l as [|a l IH]; simpl; [reflexivity|].
  destruct (f a); [discriminate | exact IH].
Qed.

(** C1: the private messages [msgs], at least one, all of the human [u] who
    is not blocked and has no OPEN thread, are delivered together.  Their
    handlers and the queue's worker then advance in any order.  Such a run
    can always be brought to quiescence, and in every quiescent state that
    any schedule reaches exactly one thread was added to the store, it is
    OPEN, it is the only OPEN thread of [u], and the chat messages added are
    the [msgs], each FROM_USER and each with that thread's id. *)
Theorem concurrent_first_dms_open_one_thread (w : World) (u : User)
    (msgs : list Message) :
  msgs <> [] -> u_bot u = false -> Forall (first_dm u) msgs ->
  u_id u ∉ blocklist w ->
  find_open_thread_by_user (threads w) (u_id u) = None ->
  queue w = [] ->
  (exists (sched : list Choice) (s' : Sys),
     sys_exec sched (deliver w msgs) = Some s' /\ quiescent s' = true)
  /\ forall (sched : list Choice) (s' : Sys),
       sys_exec sched (deliver w msgs) = Some s' -> quiescent s' = true ->
       exists (t : Thread) (new : list ChatMessage),
         threads (world s') = threads w ++ [t]
         /\ List.filter (fun t => is_open t && of_user (u_id u) t)
              (threads (world s')) = [t]
         /\ messages (world s') = messages w ++ new
         /\ Forall (fun cm => cm_thread_id cm = thread_id t
                              /\ direction cm = FROM_USER) new
         /\ map external_message_id new
            ≡ₚ map (fun m => Some (m_id m)) msgs.
Proof.
  intros Hne Hbot Hms Hblk Hnone Hqueue. split.
  - apply (deliveries_reach_quiescence w u msgs Hbot Hms Hblk).
  - intros sched s' Hexec Hquiet.
    assert (HI : Inv w u msgs s').
    { apply (inv_exec w u msgs Hbot sched (deliver w msgs)); [|exact Hexec].
      apply inv_deliver; assumption. }
    destruct (inv_quiescent w u msgs Hbot s' HI Hquiet)
      as (t & new & Hthr & Hopen & Huser & Hmsgs & Hall & Hexts).
    exists t, new. split; [exact Hthr|]. split; [|auto].
    rewrite Hthr, List.filter_app.
    unfold find_open_thread_by_user in Hnone.
    rewrite (filter_find_None _ _ Hnone). simpl.
    unfold is_open, of_user. rewrite !bool_decide_eq_true_2 by assumption.
    reflexivity.
Qed.

(** ** Worked examples *)

(** Without the queue the race is there: two invocations of the task's body
    that alternate, each looking the thread up before the other has
    inserted it, leave two OPEN threads for the same user. *)
Lemma resolve_or_create_races_outside_queue :
  option_map
    (fun s => length (List.filter (fun t => is_open t && of_user (js "111") t)
                        (threads (world s))))
    (sys_exec
       [Handler 0; Handler 1; Handler 0; Handler 1; Handler 0; Handler 1;
        Handler 0; Handler 1; Handler 0; Handler 1]
       (mkSys Demo.fresh
          [task_body (DMTask Demo.dm1); task_body (DMTask Demo.dm2)] None))
  = Some 2%nat.
Proof. vm_compute. reflexivity. Qed.

Lemma not_blocked_in_fresh : js "111" ∉ blocklist Demo.fresh.
Proof. apply (bool_decide_unpack _). vm_compute. exact I. Defined.

Lemma concurrent_first_dms_open_one_thread_witness :
  exists s : Sys,
    sys_exec Demo.interleaved (deliver Demo.fresh [Demo.dm1; Demo.dm2]) = Some s
    /\ quiescent s = true
    /\ exists (t : Thread) (new : list ChatMessage),
         threads (world s) = [t]
         /\ messages (world s) = new
         /\ Forall (fun cm => cm_thread_id cm = thread_id t
                              /\ direction cm = FROM_USER) new.
Proof.
  destruct (concurrent_first_dms_open_one_thread Demo.fresh Demo.alice
              [Demo.dm1; Demo.dm2]) as [_ Hall].
  - discriminate.
  - reflexivity.
  - repeat constructor.
  - exact not_blocked_in_fresh.
  - reflexivity.
  - reflexivity.
  - destruct (sys_exec Demo.interleaved
                (deliver Demo.fresh [Demo.dm1; Demo.dm2])) as [s|] eqn:E;
      [|vm_compute in E; discriminate E].
    exists s. split; [reflexivity|].
    assert (Hq : quiescent s = true).
    { pose proof E as E'. vm_compute in E'. injection E' as <-.
      vm_compute. reflexivity. }
    split; [exact Hq|].
    destruct (Hall Demo.interleaved s E Hq) as (t & new & H1 & _ & H3 & H4 & _).
    exists t, new. auto.
Defined.

Lemma dm_edit_without_open_thread_no_effect_witness :
  snd (run (on_messageUpdate (utils := Demo.utils) Demo.dm1_edited
              (mkOldMessage (Some (js "hello")))) Demo.fresh)
  = Demo.fresh.
Proof.
  apply (dm_edit_without_open_thread_no_effect (utils := Demo.utils));
    reflexivity.
Defined.

Lemma edit_without_change_is_ignored_witness :
  run (on_messageUpdate (utils := Demo.utils) Demo.dm1_padded
         (mkOldMessage (Some (js "hello")))) Demo.busy
  = (Returned tt, Demo.busy).
Proof.
  apply (edit_without_change_is_ignored (utils := Demo.utils)).
  vm_compute. reflexivity.
Defined.


Lemma dm_enqueued_iff_qualifies_witness :
  run (on_messageCreate_dm Demo.dm1) Demo.fresh
  = (Returned tt, set_queue (fun q => q ++ [DMTask Demo.dm1]) Demo.fresh)
  /\ exists w' : World,
       run (task_body (DMTask Demo.dm1))
         (set_queue (fun _ => []) (snd (run (on_messageCreate_dm Demo.dm1)
                                          Demo.fresh)))
       = (Returned tt, w')
       /\ threads w' = [mkThread 0 (js "111") (js "1000") OPEN 0 None]
       /\ outbox w'
          = [ChannelCreated (js "1000") (js "111");
             ChannelMessageSent (js "1000") (js "hello")]
       /\ messages w'
          = [mkChatMessage 0 (Some (js "9001")) FROM_USER (js "111")
               (js "hello") [] 1 false false].
Proof.
  destruct (dm_enqueued_iff_qualifies Demo.fresh Demo.dm1 eq_refl)
    as (_ & Hqueued & _ & Htask).
  split.
  - apply Hqueued.
    split; [exact not_blocked_in_fresh | split; reflexivity].
  - destruct (Htask (set_queue (fun _ => [])
                       (snd (run (on_messageCreate_dm Demo.dm1) Demo.fresh))))
      as (t & w' & Hrun & _ & _ & Hcase).
    change (find_open_thread_by_user _ _) with (@None Thread) in Hcase.
    destruct Hcase as (-> & Hthr & Hout & Hmsgs).
    exists w'. split; [exact Hrun|].
    rewrite Hthr, Hout, Hmsgs. repeat split; vm_compute; reflexivity.
Defined.

Lemma staff_delete_soft_deletes_witness :
  exists w' : World,
    run (on_messageDelete (utils := Demo.utils) Demo.staff_msg) Demo.busy
    = (Returned tt, w')
    /\ outbox w' = outbox Demo.busy
    /\ messages w' = [soft_deleted Demo.stored_chat].
Proof.
  destruct (proj1 (staff_delete_soft_deletes (utils := Demo.utils) Demo.busy
                     Demo.staff_msg) Demo.open_thread)
    as (w' & Hrun & Hout & _).
  - repeat split; reflexivity.
  - exists w'. split; [exact Hrun|]. split; [exact Hout|].
    vm_compute in Hrun. injection Hrun as <-. reflexivity.
Defined.

Lemma logs_lists_closed_threads_newest_first_witness :
  get_closed_threads_by_user (threads Demo.busy) (js "111")
  = [Demo.closed_early; Demo.closed_late]
  /\ log_chunks (utils := Demo.utils) (js "111")
       (get_closed_threads_by_user (threads Demo.busy) (js "111"))
     = [[log_header (js "111");
         log_line (utils := Demo.utils) Demo.closed_late;
         log_line (utils := Demo.utils) Demo.closed_early]].
Proof.
  split; [vm_compute; reflexivity|].
  destruct (logs_lists_closed_threads_newest_first (utils := Demo.utils)
              Demo.busy Demo.staff_msg (js "111"))
    as (_ & _ & _ & Hchunks & _).
  - apply (bool_decide_unpack _). vm_compute. exact I.
  - intros t Ht. apply (bool_decide_unpack _).
    apply list_elem_of_In in Ht. vm_compute in Ht.
    destruct Ht as [<- | [<- | []]]; vm_compute; exact I.
  - rewrite Hchunks. vm_compute. reflexivity.
Defined.

Lemma malformed_user_argument_is_ignored_witness :
  run (cmd_block (utils := Demo.utils) Demo.staff_msg [js "somebody"]
         (Some Demo.open_thread)) Demo.busy
  = (Returned tt, Demo.busy).
Proof.
  apply (malformed_user_argument_is_ignored (utils := Demo.utils) Demo.busy
           Demo.staff_msg [js "somebody"] (Some Demo.open_thread));
    [discriminate | reflexivity].
Defined.

Lemma blocklist_checked_once_before_enqueue_witness :
  calls (on_messageCreate_dm Demo.dm1) Demo.fresh
  = [any (BlockedHas (js "111")); any (QueueAdd (DMTask Demo.dm1))]
  /\ exists w3 : World,
       run (task_body (DMTask Demo.dm1))
         (snd (run (blocked_block (js "111"))
                 (snd (run (on_messageCreate_dm Demo.dm1) Demo.fresh))))
       = (Returned tt, w3)
       /\ length (messages w3) = 1%nat.
Proof.
  destruct (blocklist_checked_once_before_enqueue Demo.fresh Demo.dm1 eq_refl)
    as [Hcalls Hlater].
  destruct (Hlater eq_refl eq_refl not_blocked_in_fresh)
    as (_ & _ & _ & _ & t & cm & w3 & Hrun & Hmsgs & _).
  split; [rewrite Hcalls; vm_compute; reflexivity|].
  exists w3. split; [exact Hrun|]. rewrite Hmsgs. reflexivity.
Defined.

Lemma edit_by_blocked_author_is_ignored_witness :
  run (on_messageUpdate (utils := Demo.utils) Demo.staff_msg_edited
         (mkOldMessage (Some (js " on it ")))) Demo.busy_blocked
  = (Returned tt, Demo.busy_blocked).
Proof.
  apply (edit_by_blocked_author_is_ignored (utils := Demo.utils)).
  apply (bool_decide_unpack _). vm_compute. exact I.
Defined.

(** The edit of a private message whose author has no thread ends in the
    exception of line 93, after the two queries and before any effect. *)
Lemma dm_edit_without_thread_throws_demo :
  run (on_messageUpdate (utils := Demo.utils) Demo.dm1_edited
         (mkOldMessage (Some (js "hello")))) Demo.fresh
  = (Threw (TypeError "postSystemMessage"), Demo.fresh).
Proof.
  apply (dm_edit_without_thread_throws (utils := Demo.utils));
    try reflexivity.
  - exact not_blocked_in_fresh.
  - vm_compute. discriminate.
Qed.

(** ** More on the staff-channel handler and on edits *)

Section MoreStaff.
Context `{utils : Utils} (config : Config).

(** X1: the chat handler acts on nothing but a human moderator's plain
    message in a thread channel: a message from elsewhere, from a
    non-moderator or a bot, one that starts with the command or the snippet
    prefix, or one in a channel without a thread leaves the world as it
    was. *)
Theorem staff_handler_ignores_other_messages (w : World) (msg : Message) :
  messageIsOnInboxServer msg = false
  \/ isStaff (m_member msg) = false
  \/ u_bot (m_author msg) = true
  \/ startsWith (m_content msg) (cfg_prefix config) = true
  \/ startsWith (m_content msg) (cfg_snippetPrefix config) = true
  \/ find_thread_by_channel (threads w) (ch_id (m_channel msg)) = None ->
  run (on_messageCreate_staff config msg) w = (Returned tt, w).
Proof.
  intros H. unfold on_messageCreate_staff.
  destruct (messageIsOnInboxServer msg); [|reflexivity].
  destruct (isStaff (m_member msg)); [|reflexivity].
  destruct (u_bot (m_author msg)); [reflexivity|].
  destruct (startsWith (m_content msg) (cfg_prefix config)); [reflexivity|].
  destruct (startsWith (m_content msg) (cfg_snippetPrefix config));
    [reflexivity|].
  destruct H as [H|[H|[H|[H|[H|H]]]]]; try discriminate H.
  simpl. rewrite H. reflexivity.
Qed.

(** X2: the chat, edit and delete handlers never create or close a thread,
    never change the blocklist and never queue a task, whatever the event
    and whatever the store. *)
Theorem channel_handlers_keep_threads_blocklist_queue (w : World)
    (msg : Message) (oldMessage : OldMessage) :
  let unchanged (w' : World) :=
    threads w' = threads w /\ blocklist w' = blocklist w
    /\ queue w' = queue w in
  unchanged (snd (run (on_messageCreate_staff config msg) w))
  /\ unchanged (snd (run (on_messageUpdate msg oldMessage) w))
  /\ unchanged (snd (run (on_messageDelete msg) w)).
Proof.
  intros unchanged. subst unchanged. cbv beta. split; [|split].
  - unfold on_messageCreate_staff.
    destruct (messageIsOnInboxServer msg); [|repeat split].
    destruct (isStaff (m_member msg)); [|repeat split].
    destruct (u_bot (m_author msg)); [repeat split|].
    destruct (startsWith _ _ || startsWith _ _); [repeat split|].
    simpl. destruct (find_thread_by_channel _ _); [|repeat split].
    destruct (truthy _); [|repeat split].
    destruct (0 <? length (m_attachments msg))%nat; repeat split.
  - unfold on_messageUpdate.
    destruct (u_bot (m_author msg)); [repeat split|].
    simpl. destruct (bool_decide _); [repeat split|].
    destruct (str_eqb _ _); [repeat split|].
    destruct (instanceofPrivateChannel _).
    + simpl. destruct (find_open_thread_by_user _ _); repeat split.
    + destruct (messageIsOnInboxServer msg && isStaff (m_member msg));
        [|repeat split].
      simpl. destruct (find_open_thread_by_channel _ _); repeat split.
  - unfold on_messageDelete.
    destruct (u_bot (m_author msg)); [repeat split|].
    destruct (messageIsOnInboxServer msg); [|repeat split].
    destruct (isStaff (m_member msg)); [|repeat split].
    simpl. destruct (find_open_thread_by_channel _ _); repeat split.
Qed.

End MoreStaff.

Section MoreEdits.
Context `{utils : Utils}.

(** X3: when a human who is not blocked edits a private message and has the
    OPEN thread [t], the handler posts into the channel of [t] the notice
    that quotes the old content (or the placeholder of line 83 when it is
    [null]) and the new one, passed through [disableLinkPreviews], and logs
    it as a SYSTEM chat message of [t]; nothing is sent to the user. *)
Theorem dm_edit_posts_system_notice (w : World) (msg : Message)
    (oldMessage : OldMessage) (t : Thread) :
  u_bot (m_author msg) = false ->
  u_id (m_author msg) ∉ blocklist w ->
  trim (m_content msg) <> trim (default unavailable (old_content oldMessage)) ->
  instanceofPrivateChannel (m_channel msg) = true ->
  find_open_thread_by_user (threads w) (u_id (m_author msg)) = Some t ->
  let notice :=
    disableLinkPreviews
      (edit_notice (default unavailable (old_content oldMessage))
         (m_content msg)) in
  exists w' : World,
    run (on_messageUpdate msg oldMessage) w = (Returned tt, w')
    /\ outbox w' = outbox w ++ [ChannelMessageSent (channel_id t) notice]
    /\ messages w'
       = messages w
         ++ [mkChatMessage (thread_id t) None SYSTEM [] notice [] (now w)
               false false].
Proof.
  intros Hbot Hblk Htrim Hpriv Hfind notice. unfold on_messageUpdate.
  rewrite Hbot. simpl. rewrite bool_decide_eq_false_2 by assumption.
  unfold str_eqb. rewrite bool_decide_eq_false_2 by assumption.
  rewrite Hpriv. simpl. rewrite Hfind. simpl.
  eexists. split; [reflexivity|]. split; reflexivity.
Qed.

(** X4: when a human moderator who is not blocked edits a message on the
    inbox server, outside private channels, in the channel of the OPEN
    thread [t], the chat messages of [t] recorded for that message get the
    new content in place; no chat message is added or removed, the other
    ones are untouched and nothing is sent. *)
Theorem staff_edit_updates_stored_message (w : World) (msg : Message)
    (oldMessage : OldMessage) (t : Thread) :
  u_bot (m_author msg) = false ->
  u_id (m_author msg) ∉ blocklist w ->
  trim (m_content msg) <> trim (default unavailable (old_content oldMessage)) ->
  instanceofPrivateChannel (m_channel msg) = false ->
  messageIsOnInboxServer msg = true ->
  isStaff (m_member msg) = true ->
  find_open_thread_by_channel (threads w) (ch_id (m_channel msg)) = Some t ->
  exists w' : World,
    run (on_messageUpdate msg oldMessage) w = (Returned tt, w')
    /\ outbox w' = outbox w
    /\ length (messages w') = length (messages w)
    /\ Forall2
         (fun old new =>
            new = if matches (thread_id t) (m_id msg) old
                  then with_content (m_content msg) old else old)
         (messages w) (messages w').
Proof.
  intros Hbot Hblk Htrim Hpriv Hinbox Hstaff Hfind. unfold on_messageUpdate.
  rewrite Hbot. simpl. rewrite bool_decide_eq_false_2 by assumption.
  unfold str_eqb. rewrite bool_decide_eq_false_2 by assumption.
  rewrite Hpriv, Hinbox, Hstaff. simpl. rewrite Hfind. simpl.
  eexists. split; [reflexivity|]. simpl. split; [reflexivity|].
  split; [apply length_map | apply update_matching_pointwise].
Qed.

(** X5: an edit outside private channels does nothing unless it is a
    moderator's edit on the inbox server in the channel of an OPEN thread:
    the world is unchanged and the handler returns. *)
Theorem edit_outside_threads_is_ignored (w : World) (msg : Message)
    (oldMessage : OldMessage) :
  instanceofPrivateChannel (m_channel msg) = false ->
  messageIsOnInboxServer msg = false
  \/ isStaff (m_member msg) = false
  \/ find_open_thread_by_channel (threads w) (ch_id (m_channel msg)) = None ->
  run (on_messageUpdate msg oldMessage) w = (Returned tt, w).
Proof.
  intros Hpriv H. unfold on_messageUpdate.
  destruct (u_bot (m_author msg)); [reflexivity|].
  simpl. destruct (bool_decide _); [reflexivity|].
  destruct (str_eqb _ _); [reflexivity|].
  rewrite Hpriv.
  destruct (messageIsOnInboxServer msg); [|reflexivity].
  destruct (isStaff (m_member msg)); [|reflexivity].
  destruct H as [H|[H|H]]; try discriminate H.
  simpl. rewrite H. reflexivity.
Qed.

End MoreEdits.

(** ** White space around an edit *)

Lemma trimStart_blank_app (ws s : jsstring) :
  blank ws -> trimStart (ws ++ s) = trimStart s.
Proof.
  induction 1 as [|c ws Hc Hws IH]; simpl; [reflexivity|].
  rewrite Hc. exact IH.
Qed.

Lemma trimStart_blank (s : jsstring) : blank s -> trimStart s = [].
Proof.
  intros H. rewrite <- (app_nil_r s). rewrite trimStart_blank_app by exact H.
  reflexivity.
Qed.

Lemma trimStart_nil_blank (s : jsstring) : trimStart s = [] -> blank s.
Proof.
  induction s as [|c s IH]; simpl; [constructor|].
  destruct (isWhiteSpace c) eqn:E; [|discriminate].
  intros H. constructor; [exact E | apply IH, H].
Qed.

Lemma trimStart_app (s t : jsstring) :
  trimStart s <> [] -> trimStart (s ++ t) = trimStart s ++ t.
Proof.
  induction s as [|c s IH]; simpl; [contradiction|].
  destruct (isWhiteSpace c); [exact IH | reflexivity].
Qed.

Lemma blank_rev (s : jsstring) : blank s -> blank (rev s).
Proof.
  unfold blank. rewrite !Forall_forall. intros H c Hc.
  apply H, list_elem_of_In, in_rev, list_elem_of_In, Hc.
Qed.

Lemma trimEnd_app_blank (s ws : jsstring) :
  blank ws -> trimEnd (s ++ ws) = trimEnd s.
Proof.
  intros H. unfold trimEnd. rewrite rev_app_distr.
  rewrite trimStart_blank_app by (apply blank_rev, H). reflexivity.
Qed.

(** [trim] does not see white space added at either end. *)
Lemma trim_padded (ws s ws' : jsstring) :
  blank ws -> blank ws' -> trim (ws ++ s ++ ws') = trim s.
Proof.
  intros Hws Hws'. unfold trim. rewrite trimStart_blank_app by exact Hws.
  destruct (trimStart s) as [|c r] eqn:E.
  - rewrite trimStart_blank_app by (apply trimStart_nil_blank, E).
    rewrite trimStart_blank by exact Hws'. reflexivity.
  - rewrite trimStart_app by (rewrite E; discriminate).
    rewrite E. apply trimEnd_app_blank, Hws'.
Qed.

Section MoreEditsAndDeletes.
Context `{utils : Utils}.

(** X6: an edit that only adds white space (spaces, tabs, line breaks and
    the other characters [trim] strips) before or after the old content is
    not an edit: the handler returns and the world is unchanged. *)
Theorem edit_adding_white_space_is_ignored (w : World) (msg : Message)
    (oldMessage : OldMessage) (c ws ws' : jsstring) :
  old_content oldMessage = Some c ->
  blank ws -> blank ws' ->
  m_content msg = ws ++ c ++ ws' ->
  run (on_messageUpdate msg oldMessage) w = (Returned tt, w).
Proof.
  intros Hold Hws Hws' Hnew. unfold on_messageUpdate.
  destruct (u_bot (m_author msg)); [reflexivity|].
  simpl. destruct (bool_decide _); [reflexivity|].
  rewrite Hold, Hnew. simpl default.
  rewrite (trim_padded ws c ws' Hws Hws').
  unfold str_eqb. rewrite bool_decide_eq_true_2 by reflexivity. reflexivity.
Qed.

Lemma update_matching_none (t : N) (ext : Snowflake)
    (f : ChatMessage -> ChatMessage) (ms : list ChatMessage) :
  Forall (fun m => matches t ext m = false) ms ->
  update_matching t ext f ms = ms.
Proof.
  induction 1 as [|m ms Hm Hms IH]; simpl; [reflexivity|].
  rewrite Hm. f_equal. exact IH.
Qed.

Lemma set_messages_same (w : World) (f : list ChatMessage -> list ChatMessage) :
  f (messages w) = messages w -> set_messages f w = w.
Proof. destruct w. unfold set_messages. simpl. intros ->. reflexivity. Qed.

(** X7: the deletion or the edit of a moderator's message that the store has
    no chat message for (it was never recorded in the channel's OPEN thread)
    changes nothing, and raises nothing. *)
Theorem unrecorded_message_edit_and_delete_change_nothing (w : World)
    (msg : Message) (oldMessage : OldMessage) (t : Thread) :
  instanceofPrivateChannel (m_channel msg) = false ->
  find_open_thread_by_channel (threads w) (ch_id (m_channel msg)) = Some t ->
  Forall (fun m => matches (thread_id t) (m_id msg) m = false) (messages w) ->
  run (on_messageDelete msg) w = (Returned tt, w)
  /\ run (on_messageUpdate msg oldMessage) w = (Returned tt, w).
Proof.
  intros Hpriv Hfind Hnone. split.
  - unfold on_messageDelete.
    destruct (u_bot (m_author msg)); [reflexivity|].
    destruct (messageIsOnInboxServer msg); [|reflexivity].
    destruct (isStaff (m_member msg)); [|reflexivity].
    simpl. rewrite Hfind. simpl. f_equal.
    apply set_messages_same, update_matching_none, Hnone.
  - unfold on_messageUpdate.
    destruct (u_bot (m_author msg)); [reflexivity|].
    simpl. destruct (bool_decide _); [reflexivity|].
    destruct (str_eqb _ _); [reflexivity|].
    rewrite Hpriv.
    destruct (messageIsOnInboxServer msg && isStaff (m_member msg));
      [|reflexivity].
    simpl. rewrite Hfind. simpl. f_equal.
    apply set_messages_same, update_matching_none, Hnone.
Qed.

Lemma matches_soft_deleted (t : N) (ext : Snowflake) (m : ChatMessage) :
  matches t ext (soft_deleted m) = matches t ext m.
Proof. reflexivity. Qed.

Lemma update_matching_soft_deleted_twice (t : N) (ext : Snowflake)
    (ms : list ChatMessage) :
  update_matching t ext soft_deleted (update_matching t ext soft_deleted ms)
  = update_matching t ext soft_deleted ms.
Proof.
  induction ms as [|m ms IH]; simpl; [reflexivity|]. f_equal; [|exact IH].
  destruct (matches t ext m) eqn:E.
  - rewrite matches_soft_deleted, E. reflexivity.
  - rewrite E. reflexivity.
Qed.

(** X8: a delete event delivered twice does what it does once: the second
    run of the handler leaves the world of the first unchanged. *)
Theorem delete_twice_is_delete_once (w : World) (msg : Message) :
  let w1 := snd (run (on_messageDelete msg) w) in
  run (on_messageDelete msg) w1 = (Returned tt, w1).
Proof.
  unfold on_messageDelete.
  destruct (u_bot (m_author msg)); [reflexivity|].
  destruct (messageIsOnInboxServer msg); [|reflexivity].
  destruct (isStaff (m_member msg)); [|reflexivity].
  simpl.
  destruct (find_open_thread_by_channel (threads w) _) as [t|] eqn:Hfind;
    simpl; rewrite Hfind; [|reflexivity].
  simpl. f_equal. unfold set_messages. simpl. f_equal.
  apply update_matching_soft_deleted_twice.
Qed.

End MoreEditsAndDeletes.

(** ** More on the commands *)

Section MoreCommands.
Context `{utils : Utils}.

(** X9: [block] with arguments that [getUserMention] reads as the id
    [userId] puts [userId] on the blocklist (which is unchanged if it was
    there) and confirms in the invoking channel; the thread of the invoking
    channel, if any, plays no part, and threads, chat messages and queue are
    untouched. *)
Theorem block_by_argument (w : World) (msg : Message) (args : list jsstring)
    (thread : option Thread) (userId : Snowflake) :
  args <> [] -> userId <> [] ->
  getUserMention (join (js " ") args) = Some userId ->
  exists w' : World,
    run (cmd_block msg args thread) w = (Returned tt, w')
    /\ blocklist w' = {[userId]} ∪ blocklist w
    /\ outbox w'
       = outbox w
         ++ [ChannelMessageSent (ch_id (m_channel msg))
               (js "Blocked <@" ++ userId ++ js "> (id " ++ userId
                ++ js ") from modmail")]
    /\ threads w' = threads w /\ messages w' = messages w
    /\ queue w' = queue w.
Proof.
  intros Hargs Hid Hparse. unfold cmd_block, on_user_argument.
  destruct args as [|a args]; [contradiction|].
  simpl length. simpl Nat.ltb. cbv iota. rewrite Hparse.
  destruct userId as [|c id]; [contradiction|].
  eexists. split; [reflexivity|]. simpl. repeat split.
Qed.

(** X10: [unblock] with arguments that [getUserMention] reads as the id
    [userId] takes [userId] off the blocklist and confirms in the invoking
    channel, also when [userId] was not blocked: then the blocklist is
    unchanged and the confirmation is posted all the same. *)
Theorem unblock_by_argument (w : World) (msg : Message)
    (args : list jsstring) (thread : option Thread) (userId : Snowflake) :
  args <> [] -> userId <> [] ->
  getUserMention (join (js " ") args) = Some userId ->
  exists w' : World,
    run (cmd_unblock msg args thread) w = (Returned tt, w')
    /\ blocklist w' = blocklist w ∖ {[userId]}
    /\ (userId ∉ blocklist w -> blocklist w' = blocklist w)
    /\ outbox w'
       = outbox w
         ++ [ChannelMessageSent (ch_id (m_channel msg))
               (js "Unblocked <@" ++ userId ++ js "> (id " ++ userId
                ++ js ") from modmail")]
    /\ threads w' = threads w /\ messages w' = messages w
    /\ queue w' = queue w.
Proof.
  intros Hargs Hid Hparse. unfold cmd_unblock, on_user_argument.
  destruct args as [|a args]; [contradiction|].
  simpl length. simpl Nat.ltb. cbv iota. rewrite Hparse.
  destruct userId as [|c id]; [contradiction|].
  eexists. split; [reflexivity|]. simpl. repeat split.
  intros Hout. apply difference_disjoint_L, disjoint_singleton_r, Hout.
Qed.

(** X11: without arguments the three commands act on the user of the thread
    of the invoking channel, as if that user had been named; without
    arguments and outside a thread channel they do nothing. *)
Theorem commands_without_argument (w : World) (msg : Message) :
  (forall t : Thread,
     run (cmd_block msg [] (Some t)) w = run (block msg (user_id t)) w
     /\ run (cmd_unblock msg [] (Some t)) w = run (unblock msg (user_id t)) w
     /\ run (cmd_logs msg [] (Some t)) w = run (getLogs msg (user_id t)) w
     /\ blocklist (snd (run (cmd_block msg [] (Some t)) w))
        = {[user_id t]} ∪ blocklist w
     /\ blocklist (snd (run (cmd_unblock msg [] (Some t)) w))
        = blocklist w ∖ {[user_id t]})
  /\ run (cmd_block msg [] None) w = (Returned tt, w)
  /\ run (cmd_unblock msg [] None) w = (Returned tt, w)
  /\ run (cmd_logs msg [] None) w = (Returned tt, w).
Proof. repeat split. Qed.

(** X12: arguments for which [getUserMention] returns the empty string are
    treated like arguments it does not recognise, the empty string being
    falsy: the three commands return at once and change nothing. *)
Theorem empty_user_id_is_ignored (w : World) (msg : Message)
    (args : list jsstring) (thread : option Thread) :
  args <> [] ->
  getUserMention (join (js " ") args) = Some [] ->
  run (cmd_block msg args thread) w = (Returned tt, w)
  /\ run (cmd_unblock msg args thread) w = (Returned tt, w)
  /\ run (cmd_logs msg args thread) w = (Returned tt, w).
Proof.
  intros Hargs Hparse.
  unfold cmd_block, cmd_unblock, cmd_logs, on_user_argument.
  destruct args as [|a args]; [contradiction|].
  simpl length. simpl Nat.ltb. cbv iota. rewrite Hparse.
  repeat split.
Qed.

(** X13: once [block] has run for a user, by argument or from the user's
    thread channel, a private message of that user is dropped: its handler
    queues nothing and leaves the world unchanged. *)
Theorem blocked_user_private_message_is_dropped (w : World)
    (cmd dm : Message) (args : list jsstring) (thread : option Thread) :
  (args <> [] /\ u_id (m_author dm) <> []
   /\ getUserMention (join (js " ") args) = Some (u_id (m_author dm)))
  \/ (args = [] /\ exists t, thread = Some t
                             /\ user_id t = u_id (m_author dm)) ->
  let w1 := snd (run (cmd_block cmd args thread) w) in
  u_id (m_author dm) ∈ blocklist w1
  /\ run (on_messageCreate_dm dm) w1 = (Returned tt, w1).
Proof.
  intros H w1.
  assert (Hin : u_id (m_author dm) ∈ blocklist w1).
  { subst w1. unfold cmd_block, on_user_argument.
    destruct H as [(Hargs & Hid & Hparse) | (-> & t & -> & Huser)].
    - destruct args as [|a args]; [contradiction|].
      simpl length. simpl Nat.ltb. cbv iota. rewrite Hparse.
      destruct (u_id (m_author dm)) as [|c id]; [contradiction|].
      simpl. set_solver.
    - simpl. rewrite Huser. set_solver. }
  split; [exact Hin|]. unfold on_messageCreate_dm.
  destruct (instanceofPrivateChannel _); [|reflexivity].
  destruct (u_bot _); [reflexivity|].
  destruct (m_type dm =? 0)%N; [|reflexivity].
  simpl. rewrite bool_decide_eq_true_2 by exact Hin. reflexivity.
Qed.

(** X14: [block] followed by [unblock] of a user who was not blocked gives
    the blocklist back as it was, and the user's next private message is
    queued again. *)
Theorem unblock_undoes_block (w : World) (cmd cmd' dm : Message)
    (args args' : list jsstring) (thread thread' : option Thread) :
  args <> [] -> args' <> [] -> u_id (m_author dm) <> [] ->
  getUserMention (join (js " ") args) = Some (u_id (m_author dm)) ->
  getUserMention (join (js " ") args') = Some (u_id (m_author dm)) ->
  u_id (m_author dm) ∉ blocklist w ->
  instanceofPrivateChannel (m_channel dm) = true ->
  u_bot (m_author dm) = false -> m_type dm = 0%N ->
  let w1 := snd (run (cmd_block cmd args thread) w) in
  let w2 := snd (run (cmd_unblock cmd' args' thread') w1) in
  blocklist w2 = blocklist w
  /\ run (on_messageCreate_dm dm) w2
     = (Returned tt, set_queue (fun q => q ++ [DMTask dm]) w2).
Proof.
  intros Hargs Hargs' Hid Hparse Hparse' Hout Hpriv Hbot Hty w1 w2.
  assert (Hb : blocklist w2 = blocklist w).
  { subst w2 w1. unfold cmd_block, cmd_unblock, on_user_argument.
    destruct args as [|a args]; [contradiction|].
    destruct args' as [|a' args']; [contradiction|].
    simpl length. simpl Nat.ltb. cbv iota. rewrite Hparse, Hparse'.
    destruct (u_id (m_author dm)) as [|c id]; [contradiction|].
    simpl. rewrite difference_union_distr_l_L, difference_diag_L.
    rewrite (left_id_L ∅ (∪)).
    apply difference_disjoint_L, disjoint_singleton_r, Hout. }
  split; [exact Hb|]. unfold on_messageCreate_dm.
  rewrite Hpriv, Hbot, Hty. simpl.
  rewrite bool_decide_eq_false_2 by (rewrite Hb; exact Hout). reflexivity.
Qed.

End MoreCommands.

(** ** The reply commands *)

Lemma run_reply (w : World) (msg : Message) (t : Thread) (text : jsstring)
    (anon : bool) :
  exists w' : World,
    run ((if (0 <? length (m_attachments msg))%nat
          then attachments_saveAttachmentsInMessage msg else Ret tt) ;;
         thread_replyToUser t (m_member msg) text (m_attachments msg) anon ;;
         msg_delete msg) w = (Returned tt, w')
    /\ outbox w'
       = outbox w
         ++ (if (0 <? length (m_attachments msg))%nat
             then [AttachmentsSaved (m_id msg)] else [])
         ++ [DirectMessageSent (user_id t) text (m_attachments msg);
             MessageDeleted (ch_id (m_channel msg)) (m_id msg)]
    /\ messages w'
       = messages w
         ++ [mkChatMessage (thread_id t) None TO_USER
               (from_option mem_id [] (m_member msg)) text
               (m_attachments msg) (now w) false anon]
    /\ threads w' = threads w /\ blocklist w' = blocklist w
    /\ queue w' = queue w.
Proof.
  destruct (0 <? length (m_attachments msg))%nat; simpl;
    eexists; (split; [reflexivity|]); simpl; repeat split;
    rewrite <- ?app_assoc; reflexivity.
Qed.

(** X15: in the channel of thread [t], [reply] and [anonreply] capture the
    attachments if there are any, send the arguments joined by spaces and
    trimmed, with the attachments, to the user of [t] as a direct message,
    store one TO_USER chat message, whose [anonymous] flag is false for
    [reply] and true for [anonreply], and delete the command message;
    outside a thread channel they do nothing. *)
Theorem reply_commands_relay_to_user (w : World) (msg : Message)
    (args : list jsstring) :
  (forall (t : Thread) (anon : bool),
     exists w' : World,
       run ((if anon then cmd_anonreply else cmd_reply) msg args (Some t)) w
       = (Returned tt, w')
       /\ outbox w'
          = outbox w
            ++ (if (0 <? length (m_attachments msg))%nat
                then [AttachmentsSaved (m_id msg)] else [])
            ++ [DirectMessageSent (user_id t) (trim (join (js " ") args))
                  (m_attachments msg);
                MessageDeleted (ch_id (m_channel msg)) (m_id msg)]
       /\ messages w'
          = messages w
            ++ [mkChatMessage (thread_id t) None TO_USER
                  (from_option mem_id [] (m_member msg))
                  (trim (join (js " ") args)) (m_attachments msg) (now w)
                  false anon]
       /\ threads w' = threads w /\ blocklist w' = blocklist w
       /\ queue w' = queue w)
  /\ run (cmd_reply msg args None) w = (Returned tt, w)
  /\ run (cmd_anonreply msg args None) w = (Returned tt, w).
Proof.
  split; [|split; reflexivity].
  intros t [|]; apply run_reply.
Qed.

Section AutoReply.
Context `{utils : Utils} (config : Config).

(** X16: with [alwaysReply] set, a moderator's plain message in the channel
    of thread [t] does exactly what the reply command does when given the
    message's content as its one argument: [anonreply] if [alwaysReplyAnon]
    is set, [reply] otherwise. *)
Theorem auto_reply_is_the_reply_command (w : World) (msg : Message)
    (t : Thread) :
  messageIsOnInboxServer msg = true ->
  isStaff (m_member msg) = true ->
  u_bot (m_author msg) = false ->
  startsWith (m_content msg) (cfg_prefix config) = false ->
  startsWith (m_content msg) (cfg_snippetPrefix config) = false ->
  find_thread_by_channel (threads w) (ch_id (m_channel msg)) = Some t ->
  truthy (cfg_alwaysReply config) = true ->
  run (on_messageCreate_staff config msg) w
  = run ((if or_false (cfg_alwaysReplyAnon config)
          then cmd_anonreply else cmd_reply) msg [m_content msg] (Some t)) w.
Proof.
  intros Hinbox Hstaff Hbot Hpre Hsnip Hfind Halways.
  unfold on_messageCreate_staff.
  rewrite Hinbox, Hstaff, Hbot, Hpre, Hsnip. simpl. rewrite Hfind, Halways.
  destruct (or_false (cfg_alwaysReplyAnon config)); reflexivity.
Qed.

End AutoReply.

(** ** The mention alert *)

Section Mentions.
Context `{main : MainServer}.

(** X17: the bot being mentioned is reported to the log channel exactly when
    the message is on the main server, one of the mentioned users is the
    bot, the author is not a member of the inbox server and is not blocked;
    then the one effect is the alert posted in the log channel, and
    otherwise nothing changes.  Threads, chat messages, blocklist and queue
    are untouched in every case. *)
Theorem mention_alert_iff (w : World) (msg : Message) (info : MentionInfo) :
  let reported :=
    messageIsOnMainServer msg = true
    /\ (exists user, user ∈ mi_mentions info /\ u_id user = bot_user_id)
    /\ inboxGuild_members_get (u_id (m_author msg)) = None
    /\ (u_id (m_author msg) ∉ blocklist w) in
  (reported ->
   run (on_messageCreate_mention msg info) w
   = (Returned tt,
      emit (ChannelMessageSent logChannel_id (mention_alert msg info)) w))
  /\ (~ reported -> run (on_messageCreate_mention msg info) w = (Returned tt, w))
  /\ (let w' := snd (run (on_messageCreate_mention msg info) w) in
      threads w' = threads w /\ messages w' = messages w
      /\ blocklist w' = blocklist w /\ queue w' = queue w).
Proof.
  intros reported. subst reported. unfold on_messageCreate_mention.
  destruct (messageIsOnMainServer msg).
  2: { split; [intros (H & _); discriminate H|]. repeat split. }
  destruct (existsb _ (mi_mentions info)) eqn:Hm.
  2: { split; [|repeat split].
       intros (_ & (user & Hin & Hid) & _). exfalso.
       apply not_true_iff_false in Hm. apply Hm.
       apply existsb_exists. exists user.
       split; [apply list_elem_of_In, Hin|].
       unfold str_eqb. apply bool_decide_eq_true_2, Hid. }
  apply existsb_exists in Hm as (user & Hin & Hid).
  apply list_elem_of_In in Hin. unfold str_eqb in Hid.
  apply bool_decide_eq_true_1 in Hid.
  destruct (inboxGuild_members_get (u_id (m_author msg))) as [m|] eqn:Hmem.
  { rewrite bool_decide_eq_true_2 by (eexists; reflexivity). simpl.
    split; [intros (_ & _ & H & _); discriminate H|]. repeat split. }
  rewrite bool_decide_eq_false_2 by (intros [x Hx]; discriminate Hx). simpl.
  destruct (decide (u_id (m_author msg) ∈ blocklist w)) as [Hb | Hb].
  - rewrite bool_decide_eq_true_2 by exact Hb.
    split; [intros (_ & _ & _ & H); contradiction|]. repeat split.
  - rewrite bool_decide_eq_false_2 by exact Hb. simpl.
    split; [reflexivity|]. split; [|repeat split].
    intros H. exfalso. apply H. repeat split; eauto.
Qed.

End Mentions.

(** ** More on private messages and on the log listing *)

(** X18: a message outside private channels, a bot's message or a message
    that is not of the normal type never reaches the blocklist or the
    queue: the handler makes no request at all. *)
Theorem other_messages_make_no_request (w : World) (msg : Message) :
  instanceofPrivateChannel (m_channel msg) = false
  \/ u_bot (m_author msg) = true \/ m_type msg <> 0%N ->
  calls (on_messageCreate_dm msg) w = []
  /\ run (on_messageCreate_dm msg) w = (Returned tt, w).
Proof.
  intros H. unfold on_messageCreate_dm.
  destruct (instanceofPrivateChannel _); [|split; reflexivity].
  destruct (u_bot _); [split; reflexivity|].
  destruct (N.eqb_spec (m_type msg) 0) as [Hty|Hty]; [|split; reflexivity].
  destruct H as [H|[H|H]]; try discriminate H. contradiction.
Qed.

(** X19: a private message of an unblocked human who has the OPEN thread
    [t], delivered alone to an idle event loop: after the handler's two
    steps and the worker's five the loop is quiescent, no thread and no
    channel was created, the message is stored once as FROM_USER under the
    id of [t] and its content was relayed into the channel of [t]. *)
Theorem private_message_joins_open_thread (w : World) (msg : Message)
    (t : Thread) :
  instanceofPrivateChannel (m_channel msg) = true ->
  u_bot (m_author msg) = false -> m_type msg = 0%N ->
  u_id (m_author msg) ∉ blocklist w ->
  queue w = [] ->
  find_open_thread_by_user (threads w) (u_id (m_author msg)) = Some t ->
  exists s : Sys,
    sys_exec [Handler 0; Handler 0; Worker; Worker; Worker; Worker; Worker]
      (deliver w [msg]) = Some s
    /\ quiescent s = true
    /\ threads (world s) = threads w
    /\ outbox (world s)
       = outbox w ++ [ChannelMessageSent (channel_id t) (m_content msg)]
    /\ messages (world s)
       = messages w
         ++ [mkChatMessage (thread_id t) (Some (m_id msg)) FROM_USER
               (u_id (m_author msg)) (m_content msg) (m_attachments msg)
               (now w) false false].
Proof.
  intros Hpriv Hbot Hty Hblk Hq Hfind.
  unfold deliver. cbn [map]. unfold on_messageCreate_dm.
  rewrite Hpriv, Hbot, Hty. simpl.
  rewrite bool_decide_eq_false_2 by exact Hblk. simpl.
  rewrite Hq. simpl. rewrite Hfind. simpl.
  eexists. split; [reflexivity|]. simpl. repeat split.
Qed.

Section MoreLogs.
Context `{utils : Utils}.

(** X20: for a user without closed threads [logs] still posts: the lines it
    hands to [chunk] are the header and one empty line, and each chunk it
    gets back is posted in the invoking channel. *)
Theorem logs_without_closed_threads (w : World) (msg : Message)
    (userId : Snowflake) :
  LF ∉ userId ->
  List.filter (fun t => is_closed t && of_user userId t) (threads w) = [] ->
  exists w' : World,
    run (getLogs msg userId) w = (Returned tt, w')
    /\ outbox w'
       = outbox w
         ++ map (fun lines =>
                   ChannelMessageSent (ch_id (m_channel msg))
                     (join [LF] lines))
              (chunk [log_header userId; []] 15)
    /\ threads w' = threads w /\ messages w' = messages w
    /\ blocklist w' = blocklist w /\ queue w' = queue w.
Proof.
  intros Hid Hnone. unfold getLogs, threads_getClosedThreadsByUserId. simpl.
  unfold get_closed_threads_by_user. rewrite Hnone.
  change (sort_by_created []) with (@nil Thread).
  assert (Hchunks : log_chunks userId [] = chunk [log_header userId; []] 15).
  { unfold log_chunks. f_equal. simpl rev. simpl map. simpl join.
    change (log_header userId ++ [LF] ++ []) with (log_header userId ++ LF :: []).
    rewrite split_app_sep; [reflexivity|].
    unfold log_header. rewrite !not_elem_of_app.
    split; [|split]; [|exact Hid|];
      apply (bool_decide_unpack _); vm_compute; exact I. }
  rewrite Hchunks. apply run_post_chunks.
Qed.

End MoreLogs.

(** ** Worked examples for the rest of [main.js] *)

Lemma not_blocked_in_busy (uid : Snowflake) : uid ∉ blocklist Demo.busy.
Proof. apply not_elem_of_empty. Qed.

Lemma staff_handler_ignores_other_messages_witness :
  run (on_messageCreate_staff (utils := Demo.utils) Demo.config
         Demo2.block_cmd) Demo.busy
  = (Returned tt, Demo.busy).
Proof.
  apply (staff_handler_ignores_other_messages (utils := Demo.utils)).
  right; right; right; left. reflexivity.
Defined.

Lemma dm_edit_posts_system_notice_witness :
  exists w' : World,
    run (on_messageUpdate (utils := Demo.utils) Demo.dm1_edited
           (mkOldMessage (Some (js "hello")))) Demo.busy = (Returned tt, w')
    /\ outbox w'
       = [ChannelMessageSent (js "1000")
            (edit_notice (js "hello") (js "hello there"))].
Proof.
  destruct (dm_edit_posts_system_notice (utils := Demo.utils) Demo.busy
              Demo.dm1_edited (mkOldMessage (Some (js "hello")))
              Demo.open_thread)
    as (w' & Hrun & Hout & _); try reflexivity.
  - apply not_blocked_in_busy.
  - vm_compute. discriminate.
  - exists w'. split; [exact Hrun | exact Hout].
Defined.

Lemma staff_edit_updates_stored_message_witness :
  exists w' : World,
    run (on_messageUpdate (utils := Demo.utils) Demo.staff_msg_edited
           (mkOldMessage (Some (js " on it ")))) Demo.busy = (Returned tt, w')
    /\ messages w' = [with_content (js "on it now") Demo.stored_chat].
Proof.
  destruct (staff_edit_updates_stored_message (utils := Demo.utils) Demo.busy
              Demo.staff_msg_edited (mkOldMessage (Some (js " on it ")))
              Demo.open_thread)
    as (w' & Hrun & _); try reflexivity.
  - apply not_blocked_in_busy.
  - vm_compute. discriminate.
  - exists w'. split; [exact Hrun|].
    vm_compute in Hrun. injection Hrun as <-. reflexivity.
Defined.

Lemma edit_outside_threads_is_ignored_witness :
  run (on_messageUpdate (utils := Demo.utils) Demo.staff_msg_edited
         (mkOldMessage (Some (js " on it ")))) Demo.fresh
  = (Returned tt, Demo.fresh).
Proof.
  apply (edit_outside_threads_is_ignored (utils := Demo.utils));
    [reflexivity|]. right; right. reflexivity.
Defined.

Lemma edit_adding_white_space_is_ignored_witness :
  run (on_messageUpdate (utils := Demo.utils) Demo.dm1_padded
         (mkOldMessage (Some (js "hello")))) Demo.busy
  = (Returned tt, Demo.busy).
Proof.
  apply (edit_adding_white_space_is_ignored (utils := Demo.utils) Demo.busy
           Demo.dm1_padded (mkOldMessage (Some (js "hello"))) (js "hello")
           (js "  ") (js " "));
    try reflexivity; repeat constructor.
Defined.

Lemma unrecorded_message_edit_and_delete_change_nothing_witness :
  run (on_messageDelete (utils := Demo.utils) Demo2.unrecorded) Demo.busy
  = (Returned tt, Demo.busy).
Proof.
  apply (unrecorded_message_edit_and_delete_change_nothing
           (utils := Demo.utils) Demo.busy Demo2.unrecorded
           (mkOldMessage None) Demo.open_thread);
    try reflexivity. repeat constructor.
Defined.

Lemma block_by_argument_witness :
  exists w' : World,
    run (cmd_block (utils := Demo.utils) Demo2.block_cmd [js "111"] None)
      Demo.busy = (Returned tt, w')
    /\ js "111" ∈ blocklist w'.
Proof.
  destruct (block_by_argument (utils := Demo.utils) Demo.busy Demo2.block_cmd
              [js "111"] None (js "111"))
    as (w' & Hrun & Hblk & _); [discriminate | discriminate | reflexivity |].
  exists w'. split; [exact Hrun|]. rewrite Hblk.
  apply elem_of_union_l, elem_of_singleton. reflexivity.
Defined.

Lemma unblock_by_argument_witness :
  exists w' : World,
    run (cmd_unblock (utils := Demo.utils) Demo2.block_cmd [js "111"] None)
      Demo.busy = (Returned tt, w')
    /\ blocklist w' = blocklist Demo.busy.
Proof.
  destruct (unblock_by_argument (utils := Demo.utils) Demo.busy
              Demo2.block_cmd [js "111"] None (js "111"))
    as (w' & Hrun & _ & Hsame & _);
    [discriminate | discriminate | reflexivity |].
  exists w'. split; [exact Hrun|]. apply Hsame, not_blocked_in_busy.
Defined.

Lemma empty_user_id_is_ignored_witness :
  run (cmd_block (utils := Demo2.lenient_utils) Demo2.block_cmd
         [js "somebody"] (Some Demo.open_thread)) Demo.busy
  = (Returned tt, Demo.busy).
Proof.
  apply (empty_user_id_is_ignored (utils := Demo2.lenient_utils) Demo.busy
           Demo2.block_cmd [js "somebody"] (Some Demo.open_thread));
    [discriminate | reflexivity].
Defined.

Lemma blocked_user_private_message_is_dropped_witness :
  run (on_messageCreate_dm Demo.dm1)
    (snd (run (cmd_block (utils := Demo.utils) Demo2.block_cmd [js "111"]
                 None) Demo.busy))
  = (Returned tt,
     snd (run (cmd_block (utils := Demo.utils) Demo2.block_cmd [js "111"]
                 None) Demo.busy)).
Proof.
  apply (blocked_user_private_message_is_dropped (utils := Demo.utils)
           Demo.busy Demo2.block_cmd Demo.dm1 [js "111"] None).
  left. split; [discriminate|]. split; [discriminate | reflexivity].
Defined.

Lemma unblock_undoes_block_witness :
  blocklist
    (snd (run (cmd_unblock (utils := Demo.utils) Demo2.block_cmd [js "111"]
                 None)
            (snd (run (cmd_block (utils := Demo.utils) Demo2.block_cmd
                         [js "111"] None) Demo.busy))))
  = blocklist Demo.busy.
Proof.
  apply (unblock_undoes_block (utils := Demo.utils) Demo.busy Demo2.block_cmd
           Demo2.block_cmd Demo.dm1 [js "111"] [js "111"] None None);
    try discriminate; try reflexivity; apply not_blocked_in_busy.
Defined.

Lemma auto_reply_is_the_reply_command_witness :
  run (on_messageCreate_staff (utils := Demo.utils) Demo.config
         Demo.staff_msg) Demo.busy
  = run (cmd_reply Demo.staff_msg [js " on it "] (Some Demo.open_thread))
      Demo.busy.
Proof.
  apply (auto_reply_is_the_reply_command (utils := Demo.utils) Demo.config
           Demo.busy Demo.staff_msg Demo.open_thread); reflexivity.
Defined.

Lemma mention_alert_iff_witness :
  run (on_messageCreate_mention (H := Demo2.main) Demo2.mention_msg
         Demo2.mention_info) Demo.busy
  = (Returned tt,
     emit (ChannelMessageSent (js "600")
             (mention_alert Demo2.mention_msg Demo2.mention_info)) Demo.busy).
Proof.
  apply (proj1 (mention_alert_iff (main := Demo2.main) Demo.busy
                  Demo2.mention_msg Demo2.mention_info)).
  split; [reflexivity|]. split.
  - exists Demo2.the_bot. split; [apply list_elem_of_here | reflexivity].
  - split; [reflexivity | apply not_blocked_in_busy].
Defined.

Lemma other_messages_make_no_request_witness :
  calls (on_messageCreate_dm Demo.staff_msg) Demo.busy = [].
Proof.
  apply (other_messages_make_no_request Demo.busy Demo.staff_msg).
  left. reflexivity.
Defined.

Lemma private_message_joins_open_thread_witness :
  exists s : Sys,
    sys_exec [Handler 0; Handler 0; Worker; Worker; Worker; Worker; Worker]
      (deliver Demo.busy [Demo.dm1]) = Some s
    /\ quiescent s = true
    /\ threads (world s) = threads Demo.busy.
Proof.
  destruct (private_message_joins_open_thread Demo.busy Demo.dm1
              Demo.open_thread)
    as (s & Hexec & Hquiet & Hthr & _); try reflexivity.
  - apply not_blocked_in_busy.
  - exists s. auto.
Defined.

Lemma logs_without_closed_threads_witness :
  exists w' : World,
    run (getLogs (utils := Demo.utils) Demo2.block_cmd (js "222")) Demo.busy
    = (Returned tt, w')
    /\ outbox w'
       = [ChannelMessageSent (js "1000") (log_header (js "222") ++ [LF])].
Proof.
  destruct (logs_without_closed_threads (utils := Demo.utils) Demo.busy
              Demo2.block_cmd (js "222"))
    as (w' & Hrun & Hout & _).
  - apply (bool_decide_unpack _). vm_compute. exact I.
  - reflexivity.
  - exists w'. split; [exact Hrun|]. rewrite Hout. vm_compute. reflexivity.
Defined.
